(** * dump_dns: decoding a DNS message to text

    A shallow embedding of [src/dns/dump_dns.c].

    - The message buffer is a [list byte]; a C pointer into it is its offset
      from the buffer's base, a [Z].
    - Everything written to the [FILE *trace] is collected in order: a
      computation of type [io A] yields the text it wrote and its result, or
      nothing when it reads or writes outside an object (undefined in C).
    - A text is a C string: it holds no character of code 0, so that
      [strlen] is its length and [buf[0] != 0] says it is not empty.
    - A name lookup of the library returns a pointer, to a string of its
      tables or to a static buffer it has just printed a number into; a
      buffer shared by two lookups shows what the later one left there.
    - The resolver library (libresolv and libc: [ns_initparse], [ns_parserr],
      [ns_msg_getflag], [ns_name_uncompress], [p_class], [p_type], [p_rcode],
      [strerror], [inet_ntop] for [AF_INET6]) is not part of the repository;
      it is the interface [Resolver], and every theorem holds for each of its
      implementations.  [Module Wire] gives one implementation over the
      RFC 1035 wire format, on which the dumper is run on concrete packets. *)

From Stdlib Require Import ZArith List String Ascii Bool Lia DecimalString.
From Stdlib Require Import Strings.Byte.
Import ListNotations.

Local Open Scope string_scope.
Local Open Scope Z_scope.

(** ** Machine integers and formatted output *)

Definition u_char (x : Z) : Z := x mod 256.
Definition u_short (x : Z) : Z := x mod 65536.
Definition u_int (x : Z) : Z := x mod 4294967296.
Definition u_long (x : Z) : Z := x mod 18446744073709551616.

(** [%d] *)
Definition fmt_d (x : Z) : string := NilZero.string_of_int (Z.to_int x).
(** [%u] of an [unsigned int] argument *)
Definition fmt_u (x : Z) : string := fmt_d (u_int x).
(** [%lu] of an [unsigned long] argument *)
Definition fmt_lu (x : Z) : string := fmt_d (u_long x).

Definition NS_INT16SZ : Z := 2.
Definition NS_INT32SZ : Z := 4.
Definition NS_MAXDNAME : Z := 1025.

Definition nl : string := String (ascii_of_nat 10) EmptyString.
Definition tab : string := String (ascii_of_nat 9) EmptyString.
Definition backslash : string := String (ascii_of_nat 92) EmptyString.

(** ** Output and undefined behaviour *)

Definition io (A : Type) : Type := option (string * A).

Definition ret {A} (a : A) : io A := Some (EmptyString, a).
Definition fault {A} : io A := None.
Definition bind {A B} (m : io A) (f : A -> io B) : io B :=
  match m with
  | None => None
  | Some (o1, a) =>
      match f a with
      | None => None
      | Some (o2, b) => Some (o1 ++ o2, b)
      end
  end.

Notation "x <- m ;; k" := (bind m (fun x => k))
  (at level 61, m at next level, right associativity).
Notation "' p <- m ;; k" := (bind m (fun x => match x with p => k end))
  (at level 61, p pattern, m at next level, right associativity).
Notation "m ;; k" := (bind m (fun _ => k))
  (at level 61, right associativity).

(** [fputs], [putc] and [fprintf] once its arguments are formatted *)
Definition fputs (s : string) : io unit := Some (s, tt).

(** ** Reading the message buffer *)

Definition byte_val (b : byte) : Z := Z.of_N (Byte.to_N b).

Definition peek (m : list byte) (p : Z) : option Z :=
  if p <? 0 then None else option_map byte_val (nth_error m (Z.to_nat p)).

Definition load {A} (o : option A) : io A :=
  match o with Some a => ret a | None => fault end.

(** [MY_GET16(s, cp)]: the value read and the advanced pointer *)
Definition MY_GET16 (m : list byte) (cp : Z) : io (Z * Z) :=
  t0 <- load (peek m cp) ;;
  t1 <- load (peek m (cp + 1)) ;;
  ret (Z.lor (Z.shiftl t0 8) t1, cp + NS_INT16SZ).

(** [MY_GET32(l, cp)] *)
Definition MY_GET32 (m : list byte) (cp : Z) : io (Z * Z) :=
  t0 <- load (peek m cp) ;;
  t1 <- load (peek m (cp + 1)) ;;
  t2 <- load (peek m (cp + 2)) ;;
  t3 <- load (peek m (cp + 3)) ;;
  ret (Z.lor (Z.lor (Z.lor (Z.shiftl t0 24) (Z.shiftl t1 16)) (Z.shiftl t2 8)) t3,
       cp + NS_INT32SZ).

(** the [n] bytes at [p], as [memcpy] and [inet_ntop] read them *)
Fixpoint read_bytes (m : list byte) (p : Z) (n : nat) : io (list Z) :=
  match n with
  | O => ret []
  | S n' =>
      b <- load (peek m p) ;;
      bs <- read_bytes m (p + 1) n' ;;
      ret (b :: bs)
  end.

(** ** The parsed message: [ns_msg], [ns_rr] of <arpa/nameser.h> *)

Inductive ns_sect : Set := ns_s_qd | ns_s_an | ns_s_ns | ns_s_ar.

Inductive ns_flag : Set :=
| ns_f_qr | ns_f_opcode | ns_f_aa | ns_f_tc | ns_f_rd
| ns_f_ra | ns_f_z | ns_f_ad | ns_f_cd | ns_f_rcode.

(** The handle keeps the buffer itself: [_msg] is its base (offset 0) and
    [_eom] its end (offset [length _msg]). *)
Record ns_msg : Type := {
  _msg : list byte;
  _id : Z;
  _flags : Z;
  _counts : ns_sect -> Z;
  _sections : ns_sect -> Z
}.

(** [rdata] is a pointer into the message buffer. *)
Record ns_rr : Type := {
  name : string;
  type : Z;
  rr_class : Z;
  ttl : Z;
  rdlength : Z;
  rdata : Z
}.

Definition ns_msg_id (h : ns_msg) : Z := _id h.
Definition ns_msg_end (h : ns_msg) : Z := Z.of_nat (List.length (_msg h)).
Definition ns_msg_count (h : ns_msg) (s : ns_sect) : Z := _counts h s.

(** [((rr).name[0] != 0) ? (rr).name : "."] *)
Definition ns_rr_name (rr : ns_rr) : string :=
  match name rr with
  | EmptyString => "."
  | owner => owner
  end.
Definition ns_rr_type (rr : ns_rr) : Z := type rr.
Definition ns_rr_class (rr : ns_rr) : Z := rr_class rr.
Definition ns_rr_ttl (rr : ns_rr) : Z := ttl rr.
Definition ns_rr_rdlen (rr : ns_rr) : Z := rdlength rr.
Definition ns_rr_rdata (rr : ns_rr) : Z := rdata rr.

Definition ns_t_a : Z := 1.
Definition ns_t_ns : Z := 2.
Definition ns_t_cname : Z := 5.
Definition ns_t_soa : Z := 6.
Definition ns_t_ptr : Z := 12.
Definition ns_t_mx : Z := 15.
Definition ns_t_aaaa : Z := 28.
Definition ns_t_opt : Z := 41.

Definition AF_INET : Z := 2.
Definition AF_INET6 : Z := 10.

(** What [p_class] and [p_type] return: a pointer to a mnemonic of the
    library's tables, or to the static buffer [buffer] of the library, into
    which the call has just printed [text] (a value outside the table is
    printed as a number). *)
Inductive name_ref : Type :=
| Constant (text : string)
| Static (buffer : nat) (text : string).

(** What the call printed or pointed at. *)
Definition text_of (r : name_ref) : string :=
  match r with
  | Constant text => text
  | Static _ text => text
  end.

(** What is read at [r] once the call that returned [later] has run: a
    static buffer holds what was printed into it last. *)
Definition text_after (r later : name_ref) : string :=
  match r, later with
  | Static b _, Static b' text' => if Nat.eqb b b' then text' else text_of r
  | _, _ => text_of r
  end.

(** ** The resolver library

    A failing call is [inl errno] (for [ns_name_uncompress], which the code
    tests with [n < 0], [None]); [ns_name_uncompress msg src dstsiz] gives the
    number of bytes the name takes at [src] and its text.
    [args_right_to_left] says in which order the arguments of a call are
    evaluated, which C leaves to the implementation. *)
Class Resolver : Type := {
  ns_initparse : list byte -> Z + ns_msg;
  ns_parserr : ns_msg -> ns_sect -> Z -> Z + ns_rr;
  ns_msg_getflag : ns_msg -> ns_flag -> Z;
  ns_name_uncompress : list byte -> Z -> Z -> option (Z * string);
  p_class : Z -> name_ref;
  p_type : Z -> name_ref;
  p_rcode : Z -> string;
  strerror : Z -> string;
  inet_ntop6 : list Z -> string;
  args_right_to_left : bool
}.

(** Modelled from the spec: libc's [inet_ntop] is not under src/; for
    [AF_INET] it is "dotted-decimal IPv4 text" of the four bytes it reads. *)
Definition inet_ntop4 (src : list Z) : string :=
  fmt_d (nth 0 src 0) ++ "." ++ fmt_d (nth 1 src 0) ++ "." ++
  fmt_d (nth 2 src 0) ++ "." ++ fmt_d (nth 3 src 0).

(** ** [p_opcode] *)

Definition p_opcode (opcode : Z) : string :=
  match opcode with
  | 0 => "QUERY"
  | 1 => "IQUERY"
  | 2 => "CQUERYM"
  | 3 => "CQUERYU"
  | 4 => "NOTIFY"
  | 5 => "UPDATE"
  | 14 => "ZONEINIT"
  | 15 => "ZONEREF"
  | _ => "OPCODE" ++ fmt_d opcode
  end.

(** How the [switch] of [dump_dns_rr] is left: by [break] with the scratch
    buffer [buf], or by [goto error]. *)
Inductive ctl : Type := Break (buf : string) | GotoError.

(** How one turn of the option loop ends: at the loop head again, with the
    cursor [rd] and the count [optlen] of rdata bytes left, or by
    [goto error]. *)
Inductive opt_ctl : Type := Next (rd optlen : Z) | Bail.

Section Dump.

Context {lib : Resolver}.

Definition inet_ntop (af : Z) (src : list Z) : string :=
  if af =? AF_INET then inet_ntop4 src
  else if af =? AF_INET6 then inet_ntop6 src
  else EmptyString.

(** *** The EDNS0 option loop of [dump_dns_rr] *)

(** The client-subnet block (option code 8), from [MY_GET16(afi, rd)] on:
    [rd] and [edns0lenopt] as the block leaves them. *)
Definition edns0_client_subnet (m : list byte) (rd edns0lenopt : Z) : io (Z * Z) :=
  '(afi, rd) <- MY_GET16 m rd ;;
  '(masks, rd) <- MY_GET16 m rd ;;
  let edns0lenopt := u_short (edns0lenopt - 4) in
  let srcmask := u_short (Z.shiftr (Z.land masks 0xff00) 8) in
  let scomask := u_short (Z.land masks 0xff) in
  got <- read_bytes m rd (Z.to_nat (if edns0lenopt <? 16 then edns0lenopt else 16)) ;;
  let addr := firstn 16 (got ++ repeat 0 16) in
  buf <- (if afi =? 1 then ret (inet_ntop AF_INET addr)
          else if afi =? 2 then ret (inet_ntop AF_INET6 addr)
          else fputs ("unknown AFI " ++ fmt_d afi ++ nl) ;; ret "<unknown>") ;;
  fputs ("edns0_client_subnet=" ++ buf ++ "/" ++ fmt_d srcmask ++
         " (scope " ++ fmt_d scomask ++ ")") ;;
  ret (rd, edns0lenopt).

(** The text of [fprintf(trace, "edns0[code=%d,codelen=%d] ", ...)]. *)
Definition edns0_entry (edns0optcod edns0lenopt : Z) : string :=
  "edns0[code=" ++ fmt_d edns0optcod ++ ",codelen=" ++ fmt_d edns0lenopt ++ "] ".

(** The body of [while (optlen >= 4)]. *)
Definition edns0_option (m : list byte) (rd optlen : Z) : io opt_ctl :=
  '(edns0optcod, rd) <- MY_GET16 m rd ;;
  '(edns0lenopt, rd) <- MY_GET16 m rd ;;
  let optlen := u_short (optlen - 4) in
  fputs (edns0_entry edns0optcod edns0lenopt) ;;
  if edns0lenopt >? optlen then ret Bail
  else
    let optlen := u_short (optlen - edns0lenopt) in
    if edns0optcod =? 8 then
      if edns0lenopt <? 4 then ret Bail
      else
        '(rd, edns0lenopt) <- edns0_client_subnet m rd edns0lenopt ;;
        ret (Next (rd + edns0lenopt) optlen)
    else ret (Next (rd + edns0lenopt) optlen).

(** The loop, by recursion on [fuel]; [None] when the fuel runs out. *)
Fixpoint edns0_loop (fuel : nat) (m : list byte) (rd optlen : Z) : option (io ctl) :=
  if optlen >=? 4 then
    match fuel with
    | O => None
    | S fuel' =>
        match edns0_option m rd optlen with
        | None => Some fault
        | Some (out, Bail) => Some (Some (out, GotoError))
        | Some (out, Next rd' optlen') =>
            option_map (fun k => fputs out ;; k) (edns0_loop fuel' m rd' optlen')
        end
    end
  else Some (ret (Break EmptyString)).

(** Every turn takes at least four bytes off [optlen], so this much fuel is
    enough ([edns0_loop_fuel]). *)
Definition edns0_walk (m : list byte) (rd optlen : Z) : io ctl :=
  match edns0_loop (S (Z.to_nat optlen)) m rd optlen with
  | Some k => k
  | None => fault
  end.

(** The text of the [fprintf] that [case ns_t_opt] starts with. *)
Definition edns0_header (rr : ns_rr) : string :=
  let class := ns_rr_class rr in
  (* class encodes client UDP size accepted *)
  let edns0csize := u_long class in
  let edns0version := u_short (Z.shiftr (Z.land (u_long (ns_rr_ttl rr)) 0x00ff0000) 16) in
  let edns0rcode := u_short (Z.shiftr (Z.land (u_long (ns_rr_ttl rr)) 0xff000000) 24) in
  let edns0dobit := if Z.land (u_long (ns_rr_ttl rr)) 0x8000 =? 0 then "0" else "1" in
  let edns0z := u_char (Z.land (u_long (ns_rr_ttl rr)) 0x7fff) in
  (* optlen is the size of the OPT rdata *)
  let optlen := u_short (ns_rr_rdlen rr) in
  ",edns0[len=" ++ fmt_d optlen ++ ",UDP=" ++ fmt_lu edns0csize ++
  ",ver=" ++ fmt_d edns0version ++ ",rcode=" ++ fmt_d edns0rcode ++
  ",DO=" ++ edns0dobit ++ ",z=" ++ fmt_d edns0z ++ "] " ++
  backslash ++ nl ++ tab.

(** [case ns_t_opt] *)
Definition dump_edns0 (msg : ns_msg) (rr : ns_rr) : io ctl :=
  let rd := ns_rr_rdata rr in
  let optlen := u_short (ns_rr_rdlen rr) in
  fputs (edns0_header rr) ;;
  edns0_walk (_msg msg) rd optlen.

(** *** [dump_dns_rr] *)

(** [case ns_t_ns], [ns_t_ptr], [ns_t_cname], which [ns_t_mx] falls into *)
Definition dump_name (msg : ns_msg) (rd : Z) : io ctl :=
  match ns_name_uncompress (_msg msg) rd NS_MAXDNAME with
  | None => ret GotoError
  | Some (n, buf) => ret (Break buf)
  end.

Definition dump_soa (msg : ns_msg) (rd : Z) : io ctl :=
  match ns_name_uncompress (_msg msg) rd NS_MAXDNAME with
  | None => ret GotoError
  | Some (n, buf) =>
      fputs "," ;; fputs buf ;;
      let rd := rd + n in
      match ns_name_uncompress (_msg msg) rd NS_MAXDNAME with
      | None => ret GotoError
      | Some (n, buf) =>
          fputs "," ;; fputs buf ;;
          let rd := rd + n in
          if ns_msg_end msg - rd <? 5 * NS_INT32SZ then ret GotoError
          else
            '(soa0, rd) <- MY_GET32 (_msg msg) rd ;;
            '(soa1, rd) <- MY_GET32 (_msg msg) rd ;;
            '(soa2, rd) <- MY_GET32 (_msg msg) rd ;;
            '(soa3, rd) <- MY_GET32 (_msg msg) rd ;;
            '(soa4, rd) <- MY_GET32 (_msg msg) rd ;;
            ret (Break (fmt_u soa0 ++ "," ++ fmt_u soa1 ++ "," ++ fmt_u soa2 ++
                        "," ++ fmt_u soa3 ++ "," ++ fmt_u soa4))
      end
  end.

(** The [switch (type)]. *)
Definition dump_rdata (msg : ns_msg) (rr : ns_rr) : io ctl :=
  let type := ns_rr_type rr in
  let rd := ns_rr_rdata rr in
  if type =? ns_t_soa then dump_soa msg rd
  else if type =? ns_t_a then
    if ns_msg_end msg - rd <? 4 then ret GotoError
    else src <- read_bytes (_msg msg) rd 4 ;; ret (Break (inet_ntop AF_INET src))
  else if type =? ns_t_aaaa then
    if ns_msg_end msg - rd <? 16 then ret GotoError
    else src <- read_bytes (_msg msg) rd 16 ;; ret (Break (inet_ntop AF_INET6 src))
  else if type =? ns_t_mx then
    if ns_msg_end msg - rd <? 2 then ret GotoError
    else
      '(mx, rd) <- MY_GET16 (_msg msg) rd ;;
      fputs ("," ++ fmt_u mx) ;;
      dump_name msg rd
  else if (type =? ns_t_ns) || (type =? ns_t_ptr) || (type =? ns_t_cname) then
    dump_name msg rd
  else if type =? ns_t_opt then dump_edns0 msg rr
  else ret GotoError.

(** The text of [fprintf(trace, "%s,%s,%s", ...)]: [p_class] and [p_type]
    are both called before it prints, so a buffer they share shows the text
    of the one called last. *)
Definition rr_question (rr : ns_rr) : string :=
  let class := ns_rr_class rr in
  let type := ns_rr_type rr in
  let class_name := p_class class in
  let type_name := p_type type in
  if args_right_to_left
  then ns_rr_name rr ++ "," ++ text_of class_name ++ "," ++
       text_after type_name class_name
  else ns_rr_name rr ++ "," ++ text_after class_name type_name ++ "," ++
       text_of type_name.

Definition dump_dns_rr (msg : ns_msg) (rr : ns_rr) (sect : ns_sect) : io unit :=
  fputs (rr_question rr) ;;
  match sect with
  | ns_s_qd => ret tt
  | _ =>
      fputs ("," ++ fmt_lu (ns_rr_ttl rr)) ;;
      c <- dump_rdata msg rr ;;
      let buf := match c with
                 | Break buf => buf
                 | GotoError => "[" ++ fmt_u (ns_rr_rdlen rr) ++ "]"
                 end in
      match buf with
      | EmptyString => ret tt
      | _ => fputs "," ;; fputs buf
      end
  end.

(** *** [dump_dns_sect] and [dump_dns] *)

(** The [for] loop with [todo] records still to go, at index [rrnum]. *)
Fixpoint dump_dns_sect_loop (msg : ns_msg) (sect : ns_sect) (endline : string)
    (todo : nat) (rrnum : Z) (sep : string) : io unit :=
  match todo with
  | O => ret tt
  | S todo' =>
      match ns_parserr msg sect rrnum with
      | inl errno => fputs (strerror errno)
      | inr rr =>
          fputs (" " ++ sep) ;;
          dump_dns_rr msg rr sect ;;
          dump_dns_sect_loop msg sect endline todo' (rrnum + 1) endline
      end
  end.

Definition dump_dns_sect (msg : ns_msg) (sect : ns_sect) (endline : string) : io unit :=
  let rrmax := ns_msg_count msg sect in
  if rrmax =? 0 then fputs " 0"
  else
    fputs (" " ++ endline ++ fmt_d rrmax) ;;
    dump_dns_sect_loop msg sect endline (Z.to_nat rrmax) 0 EmptyString.

(** The macro [FLAG(t, f)]: what it writes, and [sep] after it. *)
Definition FLAG (msg : ns_msg) (t : string) (f : ns_flag) (sep : string) : io string :=
  if ns_msg_getflag msg f =? 0 then ret sep
  else fputs (sep ++ t) ;; ret "|".

Definition dump_dns_header (msg : ns_msg) : io unit :=
  let opcode := ns_msg_getflag msg ns_f_opcode in
  let rcode := ns_msg_getflag msg ns_f_rcode in
  let id := ns_msg_id msg in
  fputs (p_opcode opcode ++ "," ++ p_rcode rcode ++ "," ++ fmt_u id) ;;
  sep <- FLAG msg "qr" ns_f_qr "," ;;
  sep <- FLAG msg "aa" ns_f_aa sep ;;
  sep <- FLAG msg "tc" ns_f_tc sep ;;
  sep <- FLAG msg "rd" ns_f_rd sep ;;
  sep <- FLAG msg "ra" ns_f_ra sep ;;
  sep <- FLAG msg "z" ns_f_z sep ;;
  sep <- FLAG msg "ad" ns_f_ad sep ;;
  sep <- FLAG msg "cd" ns_f_cd sep ;;
  ret tt.

(** [payload] is the buffer of [paylen] bytes. *)
Definition dump_dns (payload : list byte) (endline : string) : io unit :=
  fputs (" " ++ endline ++ "dns ") ;;
  match ns_initparse payload with
  | inl errno => fputs (strerror errno)
  | inr msg =>
      dump_dns_header msg ;;
      dump_dns_sect msg ns_s_qd endline ;;
      dump_dns_sect msg ns_s_an endline ;;
      dump_dns_sect msg ns_s_ns endline ;;
      dump_dns_sect msg ns_s_ar endline
  end.

(** *** [hostname_from_question] and [get_query_domain]

    These write to [stdout]: the text of their [io] is what goes there.
    [None] for the pointer they return is [NULL]. *)

Definition sizeof_hostname : Z := 256.

(** The first turn of the loop returns, so the loop is its first turn. *)
Definition hostname_from_question (msg : ns_msg) : io (option string) :=
  let rrmax := ns_msg_count msg ns_s_qd in
  if rrmax =? 0 then ret None
  else if 0 <? rrmax then
    match ns_parserr msg ns_s_qd 0 with
    | inl _ => fputs ("ns_parserr" ++ nl) ;; ret None
    | inr rr =>
        let result := ns_rr_name rr in
        let result_len := Z.of_nat (String.length result) + 1 in
        (if result_len >? sizeof_hostname
         then fputs ("hostname too long: " ++ result ++ nl) else ret tt) ;;
        (* memcpy(hostname, result, result_len) *)
        (if result_len >? sizeof_hostname then fault else ret tt) ;;
        ret (Some result)
    end
  else ret None.

(** The result is the text written to [trace] and the pointer returned. *)
Definition get_query_domain (payload : list byte) : io (string * option string) :=
  match ns_initparse payload with
  | inl errno => fputs nl ;; ret (strerror errno, None)
  | inr msg =>
      host <- hostname_from_question msg ;;
      ret (EmptyString, host)
  end.

End Dump.

(** ** A resolver over the wire format

    An implementation of [Resolver] after RFC 1035 and the C library's
    resolver: the header and record walk of [ns_initparse] and [ns_parserr],
    name decompression with its escapes, the tables of class, type and
    rcode mnemonics, and arguments evaluated from the right. *)
Module Wire.

Definition EMSGSIZE : Z := 90.
Definition ENODEV : Z := 19.
Definition NS_CMPRSFLGS : Z := 0xc0.
Definition NS_MAXCDNAME : Z := 255.

Definition get16 (m : list byte) (p : Z) : option Z :=
  match peek m p, peek m (p + 1) with
  | Some a, Some b => Some (Z.lor (Z.shiftl a 8) b)
  | _, _ => None
  end.

Definition get32 (m : list byte) (p : Z) : option Z :=
  match get16 m p, get16 m (p + 2) with
  | Some a, Some b => Some (Z.lor (Z.shiftl a 16) b)
  | _, _ => None
  end.

Definition eom (m : list byte) : Z := Z.of_nat (List.length m).

(** [ns_name_skip]: the offset after the name at [cp]. *)
Fixpoint ns_name_skip (fuel : nat) (m : list byte) (cp : Z) : option Z :=
  match fuel with
  | O => None
  | S fuel' =>
      if cp <? eom m then
        match peek m cp with
        | None => None
        | Some n =>
            if n =? 0 then Some (cp + 1)
            else if Z.land n NS_CMPRSFLGS =? 0 then ns_name_skip fuel' m (cp + 1 + n)
            else if Z.land n NS_CMPRSFLGS =? NS_CMPRSFLGS then
              if cp + 2 >? eom m then None else Some (cp + 2)
            else None
        end
      else if cp >? eom m then None else Some cp
  end.

Definition dn_skipname (m : list byte) (ptr : Z) : option Z :=
  ns_name_skip (S (List.length m)) m ptr.

(** [ns_skiprr]: the offset after [count] records from [ptr]. *)
Fixpoint ns_skiprr (m : list byte) (ptr : Z) (section : ns_sect) (count : nat)
  : option Z :=
  match count with
  | O => if ptr >? eom m then None else Some ptr
  | S count' =>
      match dn_skipname m ptr with
      | None => None
      | Some ptr =>
          let ptr := ptr + NS_INT16SZ + NS_INT16SZ in
          match section with
          | ns_s_qd => ns_skiprr m ptr section count'
          | _ =>
              if ptr + NS_INT32SZ + NS_INT16SZ >? eom m then None
              else
                match get16 m (ptr + NS_INT32SZ) with
                | None => None
                | Some rdlength =>
                    ns_skiprr m (ptr + NS_INT32SZ + NS_INT16SZ + rdlength) section count'
                end
          end
      end
  end.

Definition sections (m : list byte) (c : ns_sect -> Z) : option (ns_sect -> Z) :=
  let skip s p := if c s =? 0 then Some p else ns_skiprr m p s (Z.to_nat (c s)) in
  match skip ns_s_qd 12 with
  | None => None
  | Some p_an =>
  match skip ns_s_an p_an with
  | None => None
  | Some p_ns =>
  match skip ns_s_ns p_ns with
  | None => None
  | Some p_ar =>
  match skip ns_s_ar p_ar with
  | None => None
  | Some p_end =>
      if p_end =? eom m
      then Some (fun s => match s with
                          | ns_s_qd => 12 | ns_s_an => p_an
                          | ns_s_ns => p_ns | ns_s_ar => p_ar
                          end)
      else None
  end end end end.

Definition ns_initparse (m : list byte) : Z + ns_msg :=
  match get16 m 0, get16 m 2, get16 m 4, get16 m 6, get16 m 8, get16 m 10 with
  | Some id, Some flags, Some qd, Some an, Some ns, Some ar =>
      let c s := match s with
                 | ns_s_qd => qd | ns_s_an => an | ns_s_ns => ns | ns_s_ar => ar
                 end in
      match sections m c with
      | Some secs =>
          inr {| _msg := m; _id := id; _flags := flags; _counts := c; _sections := secs |}
      | None => inl EMSGSIZE
      end
  | _, _, _, _, _, _ => inl EMSGSIZE
  end.

(** [_ns_flagdata]: mask and shift of each header flag. *)
Definition _ns_flagdata (f : ns_flag) : Z * Z :=
  match f with
  | ns_f_qr => (0x8000, 15)
  | ns_f_opcode => (0x7800, 11)
  | ns_f_aa => (0x0400, 10)
  | ns_f_tc => (0x0200, 9)
  | ns_f_rd => (0x0100, 8)
  | ns_f_ra => (0x0080, 7)
  | ns_f_z => (0x0040, 6)
  | ns_f_ad => (0x0020, 5)
  | ns_f_cd => (0x0010, 4)
  | ns_f_rcode => (0x000f, 0)
  end.

Definition ns_msg_getflag (h : ns_msg) (f : ns_flag) : Z :=
  Z.shiftr (Z.land (_flags h) (fst (_ns_flagdata f))) (snd (_ns_flagdata f)).

(** [ns_name_unpack]: the labels of the name at [srcp], and the bytes it
    takes at [src]; [len] is -1 until the first pointer is followed. *)
Fixpoint ns_name_unpack (fuel : nat) (m : list byte) (src srcp len checked dstp : Z)
  : option (Z * list (list Z)) :=
  match fuel with
  | O => None
  | S fuel' =>
      match peek m srcp with
      | None => None
      | Some n =>
          let srcp := srcp + 1 in
          if n =? 0 then Some (if len <? 0 then srcp - src else len, [])
          else if Z.land n NS_CMPRSFLGS =? 0 then
            if (dstp + n + 1 >=? NS_MAXCDNAME) || (srcp + n >=? eom m) then None
            else
              match read_bytes m srcp (Z.to_nat n) with
              | Some (_, label) =>
                  match ns_name_unpack fuel' m src (srcp + n) len (checked + n + 1)
                          (dstp + n + 1) with
                  | Some (l, labels) => Some (l, label :: labels)
                  | None => None
                  end
              | None => None
              end
          else if Z.land n NS_CMPRSFLGS =? NS_CMPRSFLGS then
            match peek m srcp with
            | None => None
            | Some lo =>
                let len := if len <? 0 then srcp - src + 1 else len in
                let srcp := Z.lor (Z.shiftl (Z.land n 0x3f) 8) lo in
                if srcp >=? eom m then None
                else if checked + 2 >=? eom m then None
                else ns_name_unpack fuel' m src srcp len (checked + 2) dstp
            end
          else None
      end
  end.

Definition digit (d : Z) : string :=
  String (ascii_of_nat (Z.to_nat (48 + d))) EmptyString.

Definition special (c : Z) : bool :=
  existsb (Z.eqb c) [0x22; 0x2e; 0x3b; 0x5c; 0x28; 0x29; 0x40; 0x24].

Definition printable (c : Z) : bool := (0x20 <? c) && (c <? 0x7f).

(** One byte of a label in [ns_name_ntop]. *)
Definition ntop_char (c : Z) : string :=
  let ch := String (ascii_of_nat (Z.to_nat c)) EmptyString in
  if special c then backslash ++ ch
  else if printable c then ch
  else backslash ++ digit (c / 100) ++ digit ((c mod 100) / 10) ++ digit (c mod 10).

Definition ntop_label (label : list Z) : string :=
  String.concat EmptyString (map ntop_char label).

Definition ns_name_ntop (labels : list (list Z)) : string :=
  match labels with
  | [] => "."
  | _ => String.concat "." (map ntop_label labels)
  end.

Definition ns_name_uncompress (m : list byte) (src dstsiz : Z) : option (Z * string) :=
  if (src <? 0) || (src >=? eom m) then None
  else
    match ns_name_unpack (128 + List.length m) m src src (-1) 0 0 with
    | None => None
    | Some (n, labels) =>
        let dst := ns_name_ntop labels in
        if Z.of_nat (String.length dst) + 1 >? dstsiz then None else Some (n, dst)
    end.

Definition dn_expand (m : list byte) (src dstsiz : Z) : option (Z * string) :=
  match ns_name_uncompress m src dstsiz with
  | Some (n, dst) => Some (n, if String.eqb dst "." then EmptyString else dst)
  | None => None
  end.

Definition ns_parserr (h : ns_msg) (section : ns_sect) (rrnum : Z) : Z + ns_rr :=
  let m := _msg h in
  if (rrnum <? 0) || (rrnum >=? _counts h section) then inl ENODEV
  else
    match ns_skiprr m (_sections h section) section (Z.to_nat rrnum) with
    | None => inl EMSGSIZE
    | Some ptr =>
        match dn_expand m ptr NS_MAXDNAME with
        | None => inl EMSGSIZE
        | Some (b, nm) =>
            let ptr := ptr + b in
            match get16 m ptr, get16 m (ptr + 2) with
            | Some ty, Some cl =>
                match section with
                | ns_s_qd =>
                    inr {| name := nm; type := ty; rr_class := cl;
                           ttl := 0; rdlength := 0; rdata := 0 |}
                | _ =>
                    match get32 m (ptr + 4), get16 m (ptr + 8) with
                    | Some tl, Some rdl =>
                        if ptr + 10 + rdl >? eom m then inl EMSGSIZE
                        else inr {| name := nm; type := ty; rr_class := cl;
                                    ttl := tl; rdlength := rdl; rdata := ptr + 10 |}
                    | _, _ => inl EMSGSIZE
                    end
                end
            | _, _ => inl EMSGSIZE
            end
        end
    end.

(** The one static buffer of the symbol lookup, shared by [p_class],
    [p_type] and [p_rcode]. *)
Definition unname : nat := 0%nat.

Definition p_class (class : Z) : name_ref :=
  match class with
  | 1 => Constant "IN"
  | 3 => Constant "CHAOS"
  | 4 => Constant "HS"
  | 254 => Constant "NONE"
  | 255 => Constant "ANY"
  | _ => Static unname (fmt_d class)
  end.

Definition p_type (type : Z) : name_ref :=
  match type with
  | 1 => Constant "A"
  | 2 => Constant "NS"
  | 3 => Constant "MD"
  | 4 => Constant "MF"
  | 5 => Constant "CNAME"
  | 6 => Constant "SOA"
  | 7 => Constant "MB"
  | 8 => Constant "MG"
  | 9 => Constant "MR"
  | 10 => Constant "NULL"
  | 11 => Constant "WKS"
  | 12 => Constant "PTR"
  | 13 => Constant "HINFO"
  | 14 => Constant "MINFO"
  | 15 => Constant "MX"
  | 16 => Constant "TXT"
  | 17 => Constant "RP"
  | 18 => Constant "AFSDB"
  | 19 => Constant "X25"
  | 20 => Constant "ISDN"
  | 21 => Constant "RT"
  | 22 => Constant "NSAP"
  | 23 => Constant "NSAP_PTR"
  | 24 => Constant "SIG"
  | 25 => Constant "KEY"
  | 26 => Constant "PX"
  | 27 => Constant "GPOS"
  | 28 => Constant "AAAA"
  | 29 => Constant "LOC"
  | 30 => Constant "NXT"
  | 31 => Constant "EID"
  | 32 => Constant "NIMLOC"
  | 33 => Constant "SRV"
  | 34 => Constant "ATMA"
  | 35 => Constant "NAPTR"
  | 36 => Constant "KX"
  | 37 => Constant "CERT"
  | 39 => Constant "DNAME"
  | 250 => Constant "TSIG"
  | 251 => Constant "IXFR"
  | 252 => Constant "AXFR"
  | 253 => Constant "MAILB"
  | 254 => Constant "MAILA"
  | 255 => Constant "ANY"
  | _ => Static unname (fmt_d type)
  end.

Definition p_rcode (rcode : Z) : string :=
  match rcode with
  | 0 => "NOERROR"
  | 1 => "FORMERR"
  | 2 => "SERVFAIL"
  | 3 => "NXDOMAIN"
  | 4 => "NOTIMP"
  | 5 => "REFUSED"
  | 6 => "YXDOMAIN"
  | 7 => "YXRRSET"
  | 8 => "NXRRSET"
  | 9 => "NOTAUTH"
  | 10 => "NOTZONE"
  | 16 => "BADSIG"
  | 17 => "BADKEY"
  | 18 => "BADTIME"
  | 11 => EmptyString
  | _ => fmt_d rcode
  end.

Definition strerror (errno : Z) : string :=
  match errno with
  | 19 => "No such device"
  | 90 => "Message too long"
  | _ => "Unknown error " ++ fmt_d errno
  end.

(** [%x] *)
Fixpoint hex_digits (fuel : nat) (x : Z) : string :=
  match fuel with
  | O => EmptyString
  | S fuel' =>
      let d := x mod 16 in
      let c := String (ascii_of_nat (Z.to_nat (if d <? 10 then 48 + d else 87 + d)))
                 EmptyString in
      if x <? 16 then c else hex_digits fuel' (x / 16) ++ c
  end.

Definition fmt_x (x : Z) : string := hex_digits 16 x.

Fixpoint words_of (src : list Z) : list Z :=
  match src with
  | hi :: lo :: rest => Z.lor (Z.shiftl hi 8) lo :: words_of rest
  | _ => []
  end.

(** The longest run of zero words: [(base, len)] of the best run and of the
    current one, [base = -1] for none. *)
Fixpoint best_run (ws : list Z) (i : Z) (best cur : Z * Z) : Z * Z :=
  let better := if fst cur =? -1 then best
                else if (fst best =? -1) || (snd cur >? snd best) then cur else best in
  match ws with
  | [] => better
  | w :: ws' =>
      if w =? 0 then
        best_run ws' (i + 1) best (if fst cur =? -1 then (i, 1) else (fst cur, snd cur + 1))
      else best_run ws' (i + 1) better (-1, 0)
  end.

Fixpoint ntop6_words (src ws : list Z) (all : list Z) (i : Z) (best : Z * Z) : string :=
  match ws with
  | [] => EmptyString
  | w :: ws' =>
      if negb (fst best =? -1) && (fst best <=? i) && (i <? fst best + snd best) then
        (if i =? fst best then ":" else EmptyString) ++ ntop6_words src ws' all (i + 1) best
      else
        (if i =? 0 then EmptyString else ":") ++
        (if (i =? 6) && (fst best =? 0) &&
            ((snd best =? 6) || ((snd best =? 5) && (nth 5 all 0 =? 0xffff)))
         then inet_ntop4 (skipn 12 src)
         else fmt_x w ++ ntop6_words src ws' all (i + 1) best)
  end.

Definition inet_ntop6 (src : list Z) : string :=
  let ws := words_of (firstn 16 src) in
  let best := best_run ws 0 (-1, 0) (-1, 0) in
  let best := if negb (fst best =? -1) && (snd best <? 2) then (-1, snd best) else best in
  ntop6_words src ws ws 0 best ++
  (if negb (fst best =? -1) && (fst best + snd best =? 8) then ":" else EmptyString).

Definition resolver : Resolver :=
  Build_Resolver ns_initparse ns_parserr ns_msg_getflag ns_name_uncompress
                 p_class p_type p_rcode strerror inet_ntop6 true.

End Wire.

(** ** Vocabulary of the statements *)

(** The byte at offset [p], 0 outside the buffer (only used inside). *)
Definition byte_at (m : list byte) (p : Z) : Z :=
  match peek m p with Some b => b | None => 0 end.

Definition be16_at (m : list byte) (p : Z) : Z :=
  Z.lor (Z.shiftl (byte_at m p) 8) (byte_at m (p + 1)).

Definition be32_at (m : list byte) (p : Z) : Z :=
  Z.lor (Z.lor (Z.lor (Z.shiftl (byte_at m p) 24) (Z.shiftl (byte_at m (p + 1)) 16))
               (Z.shiftl (byte_at m (p + 2)) 8))
        (byte_at m (p + 3)).

Fixpoint bytes_at (m : list byte) (p : Z) (n : nat) : list Z :=
  match n with
  | O => []
  | S n' => byte_at m p :: bytes_at m (p + 1) n'
  end.

(** [serial,refresh,retry,expire,minimum]: the five 32-bit fields at [p]. *)
Definition soa_numbers (m : list byte) (p : Z) : string :=
  fmt_u (be32_at m p) ++ "," ++ fmt_u (be32_at m (p + 4)) ++ "," ++
  fmt_u (be32_at m (p + 8)) ++ "," ++ fmt_u (be32_at m (p + 12)) ++ "," ++
  fmt_u (be32_at m (p + 16)).

(** The rdata of a record lies inside the message, as [ns_parserr] checks. *)
Definition rr_in_msg (msg : ns_msg) (rr : ns_rr) : Prop :=
  0 <= ns_rr_rdata rr /\
  ns_rr_rdata rr + u_short (ns_rr_rdlen rr) <= ns_msg_end msg.

(** [trace] is closed by the raw-length fallback of a record. *)
Definition ends_with (s suffix : string) : bool :=
  let n := String.length s in
  let k := String.length suffix in
  (k <=? n)%nat && String.eqb (substring (n - k) k s) suffix.

(** Facts on pairs of bytes are checked on all of them. *)
Definition all_bytes : list Z := map Z.of_nat (seq 0 256).

Definition contains (s sub : string) : bool :=
  match index 0 sub s with Some _ => true | None => false end.

Section Statements.

Context {lib : Resolver}.

(** What a record outside the question section starts with: the text of
    the first [fprintf], then [,ttl]. *)
Definition rr_head (rr : ns_rr) : string :=
  rr_question rr ++ "," ++ fmt_lu (ns_rr_ttl rr).

(** [,[N]] *)
Definition rr_fallback (rr : ns_rr) : string :=
  ",[" ++ fmt_u (ns_rr_rdlen rr) ++ "]".

(** The option walk has come from the loop head at [(rd0, optlen0)] to the
    loop head at [(rd, optlen)], writing [out]. *)
Inductive edns0_reach (m : list byte) : Z -> Z -> string -> Z -> Z -> Prop :=
| reach_here rd optlen : edns0_reach m rd optlen EmptyString rd optlen
| reach_next rd optlen out1 rd1 optlen1 out2 rd2 optlen2 :
    4 <= optlen ->
    edns0_option m rd optlen = Some (out1, Next rd1 optlen1) ->
    edns0_reach m rd1 optlen1 out2 rd2 optlen2 ->
    edns0_reach m rd optlen (out1 ++ out2) rd2 optlen2.

(** The address of a client-subnet option whose payload starts at [p]: the
    bytes after family and masks, at most 16, zero-padded to 16. *)
Definition client_subnet_address (m : list byte) (p len : Z) : list Z :=
  firstn 16 (bytes_at m (p + 4) (Z.to_nat (Z.min (len - 4) 16)) ++ repeat 0 16).

(** What is printed for a client-subnet option of declared length [len]
    whose payload starts at [p]. *)
Definition client_subnet_rendering (m : list byte) (p len : Z) : string :=
  let family := be16_at m p in
  let source_mask := byte_at m (p + 2) in
  let scope_mask := byte_at m (p + 3) in
  let addr := client_subnet_address m p len in
  (if (family =? 1) || (family =? 2) then EmptyString
   else "unknown AFI " ++ fmt_d family ++ nl) ++
  "edns0_client_subnet=" ++
  (if family =? 1 then inet_ntop4 addr
   else if family =? 2 then inet_ntop6 addr
   else "<unknown>") ++
  "/" ++ fmt_d source_mask ++ " (scope " ++ fmt_d scope_mask ++ ")".

(** The records of a section as [ns_parserr] yields them, index by index. *)
Definition section_records (msg : ns_msg) (sect : ns_sect) : list (Z + ns_rr) :=
  map (fun i => ns_parserr msg sect (Z.of_nat i))
      (seq 0 (Z.to_nat (ns_msg_count msg sect))).

(** The entries of a section: a space before each, and the separator before
    each but the first. *)
Fixpoint section_entries (endline sep : string) (txts : list string) : string :=
  match txts with
  | [] => EmptyString
  | t :: ts => " " ++ sep ++ t ++ section_entries endline endline ts
  end.

(** A section: [ 0] when the header count is 0, else the count and the
    entries. *)
Definition section_rendering (msg : ns_msg) (sect : ns_sect) (endline : string)
    (txts : list string) : string :=
  if ns_msg_count msg sect =? 0 then " 0"
  else " " ++ endline ++ fmt_d (ns_msg_count msg sect) ++
       section_entries endline EmptyString txts.

(** An OPT record rendered by its header and the fallback alone, with no
    option entry. *)
Definition opt_fallback_rendering (rr : ns_rr) : string :=
  rr_head rr ++ edns0_header rr ++ rr_fallback rr.

End Statements.

(** ** Packets *)

Definition bytes_of (l : list Z) : list byte :=
  map (fun z => match Byte.of_N (Z.to_N z) with Some b => b | None => x00 end) l.

(** A response: question [www.example.com A], answers A 192.0.2.1 and an
    SOA, and an OPT record with one client-subnet option (family 1, source
    mask 24, scope mask 0, address 192.0.2.0). *)
Definition pkt_sample : list byte := bytes_of
 [0x12;0x34; 0x81;0x80; 0;1; 0;2; 0;0; 0;1;
  3;119;119;119; 7;101;120;97;109;112;108;101; 3;99;111;109; 0;  0;1; 0;1;
  0xc0;12; 0;1; 0;1; 0;0;0;60; 0;4; 192;0;2;1;
  0xc0;16; 0;6; 0;1; 0;0;1;0; 0;26; 2;110;115;0xc0;16; 0;
           0;0;0;1; 0;0;0;2; 0;0;0;3; 0;0;0;4; 0;0;0;5;
  0; 0;41; 16;0; 0;0;128;0; 0;12;  0;8; 0;8; 0;1; 24;0; 192;0;2;0].

(** The header and the first bytes of the question only. *)
Definition pkt_truncated : list byte := firstn 20 pkt_sample.

(** An OPT record of 12 rdata bytes: option 3 of length 2, then option 8
    declaring 9 bytes where 2 are left. *)
Definition pkt_opt_overrun : list byte := bytes_of
 [0;1; 0;0; 0;0; 0;0; 0;0; 0;1;
  0; 0;41; 16;0; 0;0;0;0; 0;12;  0;3; 0;2; 0xaa;0xbb;  0;8; 0;9; 1;2].

(** An OPT record of 10 rdata bytes: option 3 of length 0, then a
    client-subnet option of declared length 2, which fits. *)
Definition pkt_ecs_short : list byte := bytes_of
 [0;1; 0;0; 0;0; 0;0; 0;0; 0;1;
  0; 0;41; 16;0; 0;0;0;0; 0;10;  0;3; 0;0;  0;8; 0;2; 0;1].

(** Two answers: an A record with no rdata, then a TXT record. *)
Definition pkt_short_a : list byte := bytes_of
 [0;2; 0x81;0x80; 0;0; 0;2; 0;0; 0;0;
  1;97;0; 0;1; 0;1; 0;0;0;60; 0;0;
  1;98;0; 0;16; 0;1; 0;0;0;60; 0;2; 1;120].

(** An SOA record whose rdata is two root names and nothing else, then a TXT
    record of 20 bytes. *)
Definition pkt_short_soa : list byte := bytes_of
 [0;3; 0x81;0x80; 0;0; 0;1; 0;0; 0;1;
  1;97;0; 0;6; 0;1; 0;0;0;60; 0;2; 0;0;
  0; 0;16; 0;1; 0;0;0;60; 0;9; 8;49;50;51;52;53;54;55;56].

(** A query whose question name has two labels of 63 zero bytes: 255 bytes
    or less on the wire, 505 characters as text. *)
Definition pkt_long_name : list byte := bytes_of
 ([0;4; 1;0; 0;1; 0;0; 0;0; 0;0] ++
  63 :: repeat 0 63 ++ 63 :: repeat 0 63 ++ [0; 0;1; 0;1]).

(** A query whose question name is a compression pointer out of the
    message. *)
Definition pkt_bad_pointer : list byte := bytes_of
 [0;5; 1;0; 0;1; 0;0; 0;0; 0;0;  0xc0;0xff; 0;1; 0;1].


(** The handle and the records [Wire] makes of a packet. *)
Definition msg_of (payload : list byte) : ns_msg :=
  match Wire.ns_initparse payload with
  | inr msg => msg
  | inl _ => {| _msg := payload; _id := 0; _flags := 0;
                _counts := fun _ => 0; _sections := fun _ => 0 |}
  end.

Definition rr_of (msg : ns_msg) (sect : ns_sect) (rrnum : Z) : ns_rr :=
  match Wire.ns_parserr msg sect rrnum with
  | inr rr => rr
  | inl _ => {| name := EmptyString; type := 0; rr_class := 0; ttl := 0;
                rdlength := 0; rdata := 0 |}
  end.

Definition msg_sample : ns_msg := msg_of pkt_sample.
Definition rr_sample_a : ns_rr := rr_of msg_sample ns_s_an 0.
Definition rr_sample_soa : ns_rr := rr_of msg_sample ns_s_an 1.
Definition rr_sample_opt : ns_rr := rr_of msg_sample ns_s_ar 0.

Definition msg_opt_overrun : ns_msg := msg_of pkt_opt_overrun.
Definition rr_opt_overrun : ns_rr := rr_of msg_opt_overrun ns_s_ar 0.

Definition msg_ecs_short : ns_msg := msg_of pkt_ecs_short.
Definition rr_ecs_short : ns_rr := rr_of msg_ecs_short ns_s_ar 0.

Definition msg_short_a : ns_msg := msg_of pkt_short_a.
Definition rr_short_a : ns_rr := rr_of msg_short_a ns_s_an 0.

Definition msg_short_soa : ns_msg := msg_of pkt_short_soa.
Definition rr_short_soa : ns_rr := rr_of msg_short_soa ns_s_an 0.

Definition msg_long_name : ns_msg := msg_of pkt_long_name.
Definition rr_long_name : ns_rr := rr_of msg_long_name ns_s_qd 0.

(** Closed goals on the packets are settled by evaluation. *)
Ltac eval_goal :=
  vm_compute; first [reflexivity | discriminate | (intro; discriminate)].

(** ** Further vocabulary and packets *)

(** [,buf] when the scratch buffer is not empty: the last lines of
    [dump_dns_rr]. *)
Definition buf_field (buf : string) : string :=
  match buf with
  | EmptyString => EmptyString
  | _ => "," ++ buf
  end.

(** The flag mnemonics in the order of the [FLAG] lines of [dump_dns]. *)
Definition flag_table : list (string * ns_flag) :=
  [("qr", ns_f_qr); ("aa", ns_f_aa); ("tc", ns_f_tc); ("rd", ns_f_rd);
   ("ra", ns_f_ra); ("z", ns_f_z); ("ad", ns_f_ad); ("cd", ns_f_cd)].

(** Names joined for the header: a comma before the first, a bar before
    each of the others. *)
Definition join_flags (names : list string) : string :=
  match names with
  | [] => EmptyString
  | t :: ts => "," ++ t ++ String.concat EmptyString (map (fun u => "|" ++ u) ts)
  end.

(** The separator the next flag is written after. *)
Definition sep_of (names : list string) : string :=
  match names with
  | [] => ","
  | _ => "|"
  end.

Section MoreStatements.

Context {lib : Resolver}.

(** [names] with the mnemonic [t] added when the flag [f] is set. *)
Definition add_flag (msg : ns_msg) (t : string) (f : ns_flag) (names : list string)
  : list string :=
  if ns_msg_getflag msg f =? 0 then names else names ++ [t].

(** The mnemonics of the flags that are set in the header, in the order of
    the table. *)
Definition set_flags (msg : ns_msg) : list string :=
  fold_left (fun names tf => add_flag msg (fst tf) (snd tf) names) flag_table [].

(** The record types with a case of their own in [dump_dns_rr]. *)
Definition decoded_types : list Z :=
  [ns_t_soa; ns_t_a; ns_t_aaaa; ns_t_mx; ns_t_ns; ns_t_ptr; ns_t_cname; ns_t_opt].

(** The library's side of the bargain: a name takes no negative number of
    bytes, and a record's rdata lies inside the message. *)
Definition uncompress_sound : Prop :=
  forall m src dstsiz n dst,
    ns_name_uncompress m src dstsiz = Some (n, dst) -> 0 <= n.

Definition parserr_sound (msg : ns_msg) : Prop :=
  forall sect rrnum rr, ns_parserr msg sect rrnum = inr rr -> rr_in_msg msg rr.

End MoreStatements.

(** Seven answers owned by [a]: AAAA ::1; MX 10 a; CNAME a; MX 20 with a
    name pointing out of the message; NS with such a name; SOA with such a
    first name; SOA with first name [a] and such a second name. *)
Definition pkt_zone : list byte := bytes_of
 [0;6; 0x84;0; 0;0; 0;7; 0;0; 0;0;
  1;97;0;    0;28; 0;1; 0;0;0;5; 0;16; 0;0;0;0;0;0;0;0;0;0;0;0;0;0;0;1;
  0xc0;12;   0;15; 0;1; 0;0;0;5; 0;4;  0;10; 0xc0;12;
  0xc0;12;   0;5;  0;1; 0;0;0;5; 0;2;  0xc0;12;
  0xc0;12;   0;15; 0;1; 0;0;0;5; 0;4;  0;20; 0xc0;0xff;
  0xc0;12;   0;2;  0;1; 0;0;0;5; 0;2;  0xc0;0xff;
  0xc0;12;   0;6;  0;1; 0;0;0;5; 0;2;  0xc0;0xff;
  0xc0;12;   0;6;  0;1; 0;0;0;5; 0;4;  0xc0;12; 0xc0;0xff].

Definition msg_zone : ns_msg := msg_of pkt_zone.
Definition rr_zone (i : Z) : ns_rr := rr_of msg_zone ns_s_an i.

(** Two questions, the second with a name pointing out of the message. *)
Definition pkt_bad_second : list byte := bytes_of
 [0;7; 1;0; 0;2; 0;0; 0;0; 0;0;
  1;97;0; 0;1; 0;1;
  0xc0;0xff; 0;1; 0;1].

Definition msg_bad_second : ns_msg := msg_of pkt_bad_second.

Definition msg_bad_pointer : ns_msg := msg_of pkt_bad_pointer.

(** The TXT record of [pkt_short_a]. *)
Definition rr_short_txt : ns_rr := rr_of msg_short_a ns_s_an 1.

(** An OPT record with one client-subnet option of declared length 6:
    family 1, source mask 16, scope mask 0, and the two address bytes 10, 1. *)
Definition pkt_ecs_prefix : list byte := bytes_of
 [0;8; 0;0; 0;0; 0;0; 0;0; 0;1;
  0; 0;41; 16;0; 0;0;0;0; 0;10;  0;8; 0;6; 0;1; 16;0; 10;1].

(** A question and an answer owned by [a], both of class 2 and type 65280,
    neither of which the library has a mnemonic for; the answer has three
    rdata bytes. *)
Definition pkt_unnamed : list byte := bytes_of
 [0;9; 0x81;0x80; 0;1; 0;1; 0;0; 0;0;
  1;97;0;  0xff;0; 0;2;
  0xc0;12; 0xff;0; 0;2; 0;0;0;60; 0;3; 1;2;3].

Definition msg_unnamed : ns_msg := msg_of pkt_unnamed.
Definition rr_unnamed_question : ns_rr := rr_of msg_unnamed ns_s_qd 0.
Definition rr_unnamed_answer : ns_rr := rr_of msg_unnamed ns_s_an 0.

(** An OPT record whose ttl word is 0x01028123: extended rcode 1, version
    2, DO set, and 0x0123 in the bits 14-0. *)
Definition rr_opt_flags : ns_rr :=
  {| name := EmptyString; type := 41; rr_class := 4096; ttl := 0x01028123;
     rdlength := 0; rdata := 0 |}.

(** The [switch] of [dump_dns_rr] at a record whose type is known by [Ht]. *)
Ltac type_case Ht :=
  unfold dump_rdata; rewrite Ht;
  cbn [Z.eqb ns_t_opt ns_t_soa ns_t_a ns_t_aaaa ns_t_mx ns_t_ns ns_t_ptr ns_t_cname
       Pos.eqb orb].

(** * Proofs *)

(** ** Strings and the output monad *)

Lemma append_assoc (a b c : string) : (a ++ b) ++ c = a ++ b ++ c.
Proof. induction a as [|ch a IH]; simpl; [reflexivity | now rewrite IH]. Qed.

Lemma append_nil_r (a : string) : a ++ EmptyString = a.
Proof. induction a as [|ch a IH]; simpl; [reflexivity | now rewrite IH]. Qed.

Lemma bind_fputs {A} (s : string) (k : io A) :
  (fputs s ;; k) = match k with Some (o, a) => Some (s ++ o, a) | None => None end.
Proof. reflexivity. Qed.

Lemma bind_ret {A B} (a : A) (f : A -> io B) : (x <- ret a ;; f x) = f a.
Proof. unfold bind, ret. destruct (f a) as [[o b]|]; reflexivity. Qed.

Lemma bind_some {A B} (o : string) (a : A) (f : A -> io B) :
  (x <- Some (o, a) ;; f x) = (fputs o ;; f a).
Proof. reflexivity. Qed.

Lemma fputs_app {A} (a b : string) (k : io A) :
  (fputs (a ++ b) ;; k) = (fputs a ;; fputs b ;; k).
Proof.
  rewrite !bind_fputs. destruct k as [[o x]|]; [|reflexivity].
  now rewrite append_assoc.
Qed.

Lemma fputs_nil {A} (k : io A) : (fputs EmptyString ;; k) = k.
Proof. rewrite bind_fputs. now destruct k as [[o x]|]. Qed.

(** ** Bytes in the buffer *)

Lemma byte_val_range (b : byte) : 0 <= byte_val b < 256.
Proof.
  unfold byte_val. pose proof (Byte.to_N_bounded b) as H.
  lia.
Qed.

Lemma peek_in (m : list byte) (p : Z) :
  0 <= p < Z.of_nat (List.length m) -> peek m p = Some (byte_at m p).
Proof.
  intros [H0 H1]. unfold byte_at, peek.
  destruct (p <? 0) eqn:E; [lia|].
  destruct (nth_error m (Z.to_nat p)) eqn:N; [reflexivity|].
  apply nth_error_None in N. lia.
Qed.

Lemma peek_some (m : list byte) (p v : Z) :
  peek m p = Some v -> v = byte_at m p /\ 0 <= p < Z.of_nat (List.length m).
Proof.
  intros H. unfold byte_at. rewrite H. split; [reflexivity|].
  unfold peek in H. destruct (p <? 0) eqn:E; [discriminate|].
  destruct (nth_error m (Z.to_nat p)) eqn:N; [|discriminate].
  assert (Hn : nth_error m (Z.to_nat p) <> None) by congruence.
  apply nth_error_Some in Hn. lia.
Qed.

Lemma byte_at_range (m : list byte) (p : Z) : 0 <= byte_at m p < 256.
Proof.
  unfold byte_at, peek. destruct (p <? 0); [lia|].
  destruct (nth_error m (Z.to_nat p)); simpl; [apply byte_val_range | lia].
Qed.


Lemma in_all_bytes (x : Z) : 0 <= x < 256 -> In x all_bytes.
Proof.
  intros H. unfold all_bytes. apply in_map_iff. exists (Z.to_nat x).
  split; [lia|]. apply in_seq. lia.
Qed.

Lemma for_all_bytes (P : Z -> Z -> bool) :
  forallb (fun a => forallb (P a) all_bytes) all_bytes = true ->
  forall a b, 0 <= a < 256 -> 0 <= b < 256 -> P a b = true.
Proof.
  intros H a b Ha Hb. rewrite forallb_forall in H.
  specialize (H a (in_all_bytes a Ha)). rewrite forallb_forall in H.
  exact (H b (in_all_bytes b Hb)).
Qed.

Lemma be16_bytes (a b : Z) :
  0 <= a < 256 -> 0 <= b < 256 ->
  Z.lor (Z.shiftl a 8) b = a * 256 + b.
Proof.
  intros Ha Hb. apply Z.eqb_eq.
  apply (for_all_bytes (fun a b => Z.lor (Z.shiftl a 8) b =? a * 256 + b));
    [vm_compute; reflexivity | assumption | assumption].
Qed.

Lemma masks_bytes (a b : Z) :
  0 <= a < 256 -> 0 <= b < 256 ->
  u_short (Z.shiftr (Z.land (Z.lor (Z.shiftl a 8) b) 0xff00) 8) = a /\
  u_short (Z.land (Z.lor (Z.shiftl a 8) b) 0xff) = b.
Proof.
  intros Ha Hb. split; apply Z.eqb_eq.
  - apply (for_all_bytes (fun a b =>
      u_short (Z.shiftr (Z.land (Z.lor (Z.shiftl a 8) b) 0xff00) 8) =? a));
      [vm_compute; reflexivity | assumption | assumption].
  - apply (for_all_bytes (fun a b =>
      u_short (Z.land (Z.lor (Z.shiftl a 8) b) 0xff) =? b));
      [vm_compute; reflexivity | assumption | assumption].
Qed.

Lemma be16_at_range (m : list byte) (p : Z) : 0 <= be16_at m p < 65536.
Proof.
  unfold be16_at.
  pose proof (byte_at_range m p). pose proof (byte_at_range m (p + 1)).
  rewrite be16_bytes by assumption. lia.
Qed.

Lemma MY_GET16_in (m : list byte) (p : Z) :
  0 <= p -> p + 2 <= Z.of_nat (List.length m) ->
  MY_GET16 m p = Some (EmptyString, (be16_at m p, p + 2)).
Proof.
  intros H0 H1. unfold MY_GET16.
  rewrite (peek_in m p), (peek_in m (p + 1)) by lia. reflexivity.
Qed.

Lemma MY_GET16_some (m : list byte) (p : Z) o v q :
  MY_GET16 m p = Some (o, (v, q)) ->
  o = EmptyString /\ v = be16_at m p /\ q = p + 2 /\
  0 <= p /\ p + 2 <= Z.of_nat (List.length m).
Proof.
  unfold MY_GET16. intros H.
  destruct (peek m p) as [a|] eqn:Ea; [|discriminate].
  destruct (peek m (p + 1)) as [b|] eqn:Eb; [|discriminate].
  apply peek_some in Ea. apply peek_some in Eb.
  destruct Ea as [-> Ha]. destruct Eb as [-> Hb].
  cbn in H. inversion H. unfold be16_at, NS_INT16SZ. repeat split; lia.
Qed.

Lemma MY_GET32_in (m : list byte) (p : Z) :
  0 <= p -> p + 4 <= Z.of_nat (List.length m) ->
  MY_GET32 m p = Some (EmptyString, (be32_at m p, p + 4)).
Proof.
  intros H0 H1. unfold MY_GET32.
  rewrite (peek_in m p), (peek_in m (p + 1)), (peek_in m (p + 2)),
    (peek_in m (p + 3)) by lia.
  reflexivity.
Qed.

Lemma read_bytes_in (m : list byte) (n : nat) : forall p,
  0 <= p -> p + Z.of_nat n <= Z.of_nat (List.length m) ->
  read_bytes m p n = Some (EmptyString, bytes_at m p n).
Proof.
  induction n as [|n IH]; intros p H0 H1; [reflexivity|].
  cbn [read_bytes bytes_at]. rewrite (peek_in m p) by lia.
  rewrite (IH (p + 1)) by lia. reflexivity.
Qed.

Lemma bind_inv {A B} (m : io A) (f : A -> io B) (o : string) (b : B) :
  (x <- m ;; f x) = Some (o, b) ->
  exists o1 a o2, m = Some (o1, a) /\ f a = Some (o2, b) /\ o = o1 ++ o2.
Proof.
  unfold bind. destruct m as [[o1 a]|]; [|discriminate].
  destruct (f a) as [[o2 b']|] eqn:E; [|discriminate].
  intros H. inversion H. subst. now exists o1, a, o2.
Qed.

Lemma u_short_small (x : Z) : 0 <= x < 65536 -> u_short x = x.
Proof. intros H. unfold u_short. now apply Z.mod_small. Qed.

(** ** One option of the walk *)

Section OptionWalk.

Context {lib : Resolver}.

Lemma inet_ntop_AF_INET (src : list Z) : inet_ntop AF_INET src = inet_ntop4 src.
Proof. reflexivity. Qed.

Lemma inet_ntop_AF_INET6 (src : list Z) : inet_ntop AF_INET6 src = inet_ntop6 src.
Proof. reflexivity. Qed.

(** Whatever the client-subnet block reads, it leaves the cursor four bytes
    on and the length four less. *)
Lemma edns0_client_subnet_some (m : list byte) (rd len : Z) o rd' len' :
  edns0_client_subnet m rd len = Some (o, (rd', len')) ->
  rd' = rd + 4 /\ len' = u_short (len - 4).
Proof.
  unfold edns0_client_subnet. intros H.
  apply bind_inv in H. destruct H as (o1 & [afi rd1] & o2 & H1 & H & _).
  apply MY_GET16_some in H1. destruct H1 as (_ & _ & -> & _).
  apply bind_inv in H. destruct H as (o3 & [masks rd2] & o4 & H2 & H & _).
  apply MY_GET16_some in H2. destruct H2 as (_ & _ & -> & _).
  apply bind_inv in H. destruct H as (o5 & got & o6 & _ & H & _).
  apply bind_inv in H. destruct H as (o7 & buf & o8 & _ & H & _).
  apply bind_inv in H. destruct H as (o9 & [] & o10 & _ & H & _).
  inversion H. split; [lia | reflexivity].
Qed.

Lemma edns0_client_subnet_in (m : list byte) (rd len : Z) :
  0 <= rd -> 4 <= len < 65536 -> rd + len <= Z.of_nat (List.length m) ->
  edns0_client_subnet m rd len =
    Some (client_subnet_rendering m rd len, (rd + 4, len - 4)).
Proof.
  intros H0 Hlen Hin. unfold edns0_client_subnet, client_subnet_rendering.
  rewrite (MY_GET16_in m rd) by lia. rewrite bind_some, fputs_nil.
  rewrite (MY_GET16_in m (rd + 2)) by lia. rewrite bind_some, fputs_nil.
  replace (rd + 2 + 2) with (rd + 4) by lia.
  rewrite (u_short_small (len - 4)) by lia.
  destruct (masks_bytes (byte_at m (rd + 2)) (byte_at m (rd + 2 + 1))
              (byte_at_range _ _) (byte_at_range _ _)) as [Esrc Esco].
  fold (be16_at m (rd + 2)) in Esrc, Esco. rewrite Esrc, Esco.
  replace (rd + 2 + 1) with (rd + 3) by lia.
  replace (if len - 4 <? 16 then len - 4 else 16) with (Z.min (len - 4) 16)
    by (destruct (len - 4 <? 16) eqn:E; lia).
  rewrite read_bytes_in by lia. rewrite bind_some, fputs_nil.
  unfold client_subnet_address.
  set (addr := firstn 16 _).
  destruct (be16_at m rd =? 1) eqn:E1.
  - rewrite bind_ret. cbn [orb]. cbn. rewrite append_nil_r. reflexivity.
  - destruct (be16_at m rd =? 2) eqn:E2.
    + rewrite bind_ret. cbn [orb]. cbn. rewrite append_nil_r. reflexivity.
    + cbn [orb]. cbn. rewrite !append_assoc, !append_nil_r. reflexivity.
Qed.

(** A turn that goes on to the next option has moved the cursor by four
    bytes and the declared length, whatever the option is. *)
Lemma edns0_option_next (m : list byte) (rd optlen : Z) out rd' optlen' :
  4 <= optlen < 65536 ->
  edns0_option m rd optlen = Some (out, Next rd' optlen') ->
  rd' = rd + 4 + be16_at m (rd + 2) /\
  optlen' = optlen - 4 - be16_at m (rd + 2) /\
  0 <= be16_at m (rd + 2) <= optlen - 4.
Proof.
  intros Hol H. unfold edns0_option in H.
  apply bind_inv in H. destruct H as (o1 & [code rd1] & o2 & H1 & H & _).
  apply MY_GET16_some in H1. destruct H1 as (_ & -> & -> & _).
  apply bind_inv in H. destruct H as (o3 & [len rd2] & o4 & H2 & H & _).
  apply MY_GET16_some in H2. destruct H2 as (_ & -> & -> & _).
  pose proof (be16_at_range m (rd + 2)) as Hlen.
  set (len := be16_at m (rd + 2)) in *.
  rewrite (u_short_small (optlen - 4)) in H by lia.
  rewrite bind_fputs in H.
  destruct (len >? optlen - 4) eqn:Egt; [discriminate|].
  assert (Hle : len <= optlen - 4) by lia.
  rewrite (u_short_small (optlen - 4 - len)) in H by lia.
  destruct (be16_at m rd =? 8) eqn:E8.
  - destruct (len <? 4) eqn:E4; [discriminate|].
    destruct (edns0_client_subnet m (rd + 2 + 2) len) as [[o [rd3 len3]]|] eqn:Ecs;
      [|discriminate].
    apply edns0_client_subnet_some in Ecs. destruct Ecs as [-> ->].
    rewrite (u_short_small (len - 4)) in H by lia.
    cbn in H. inversion H. lia.
  - cbn in H. inversion H. lia.
Qed.

(** The turn at an option inside the rdata. *)
Lemma edns0_option_in (m : list byte) (rd optlen : Z) :
  0 <= rd -> 4 <= optlen < 65536 -> rd + optlen <= Z.of_nat (List.length m) ->
  edns0_option m rd optlen =
    let code := be16_at m rd in
    let len := be16_at m (rd + 2) in
    if len >? optlen - 4 then Some (edns0_entry code len, Bail)
    else if code =? 8 then
      if len <? 4 then Some (edns0_entry code len, Bail)
      else Some (edns0_entry code len ++ client_subnet_rendering m (rd + 4) len,
                 Next (rd + 4 + len) (optlen - 4 - len))
    else Some (edns0_entry code len, Next (rd + 4 + len) (optlen - 4 - len)).
Proof.
  intros H0 Hol Hin. unfold edns0_option.
  rewrite (MY_GET16_in m rd) by lia. rewrite bind_some, fputs_nil.
  rewrite (MY_GET16_in m (rd + 2)) by lia. rewrite bind_some, fputs_nil.
  replace (rd + 2 + 2) with (rd + 4) by lia.
  pose proof (be16_at_range m (rd + 2)) as Hlen.
  cbv zeta. set (len := be16_at m (rd + 2)) in *. set (code := be16_at m rd).
  rewrite (u_short_small (optlen - 4)) by lia.
  rewrite bind_fputs.
  destruct (len >? optlen - 4) eqn:Egt.
  - cbn. now rewrite append_nil_r.
  - rewrite (u_short_small (optlen - 4 - len)) by lia.
    destruct (code =? 8).
    + destruct (len <? 4) eqn:E4.
      * cbn. now rewrite append_nil_r.
      * rewrite edns0_client_subnet_in by lia.
        cbn. rewrite append_nil_r.
        replace (rd + 4 + 4 + (len - 4)) with (rd + 4 + len) by lia.
        reflexivity.
    + cbn. now rewrite append_nil_r.
Qed.

(** ** The loop *)

Lemma edns0_loop_mono (m : list byte) (f : nat) : forall f' rd optlen k,
  (f <= f')%nat ->
  edns0_loop f m rd optlen = Some k -> edns0_loop f' m rd optlen = Some k.
Proof.
  induction f as [|f IH]; intros f' rd optlen k Hle H.
  - destruct f'; cbn in *; destruct (optlen >=? 4); congruence.
  - destruct f' as [|f']; [lia|]. cbn in *.
    destruct (optlen >=? 4); [|assumption].
    destruct (edns0_option m rd optlen) as [[out [rd' optlen'|]]|]; try assumption.
    destruct (edns0_loop f m rd' optlen') as [k'|] eqn:E; [|discriminate].
    rewrite (IH f' rd' optlen' k') by (assumption || lia). assumption.
Qed.

(** The fuel of [edns0_walk] does not run out. *)
Lemma edns0_loop_fuel (m : list byte) (f : nat) : forall rd optlen,
  0 <= optlen < 65536 -> (Z.to_nat optlen < f)%nat ->
  exists k, edns0_loop f m rd optlen = Some k.
Proof.
  induction f as [|f IH]; intros rd optlen Hol Hf; [lia|].
  cbn. destruct (optlen >=? 4) eqn:E4; [|eexists; reflexivity].
  destruct (edns0_option m rd optlen) as [[out [rd' optlen'|]]|] eqn:E;
    try (eexists; reflexivity).
  apply edns0_option_next in E; [|lia]. destruct E as (_ & -> & Hlen).
  destruct (IH rd' (optlen - 4 - be16_at m (rd + 2))) as [k Hk]; [lia | lia |].
  rewrite Hk. eexists; reflexivity.
Qed.

Lemma edns0_walk_exit (m : list byte) (rd optlen : Z) :
  optlen < 4 -> edns0_walk m rd optlen = ret (Break EmptyString).
Proof.
  intros H. unfold edns0_walk. cbn.
  destruct (optlen >=? 4) eqn:E; [lia | reflexivity].
Qed.

Lemma edns0_walk_bail (m : list byte) (rd optlen : Z) (out : string) :
  4 <= optlen -> edns0_option m rd optlen = Some (out, Bail) ->
  edns0_walk m rd optlen = Some (out, GotoError).
Proof.
  intros H E. unfold edns0_walk. cbn.
  destruct (optlen >=? 4) eqn:E4; [|lia]. now rewrite E.
Qed.

Lemma edns0_walk_next (m : list byte) (rd optlen : Z) out rd' optlen' :
  4 <= optlen < 65536 ->
  edns0_option m rd optlen = Some (out, Next rd' optlen') ->
  edns0_walk m rd optlen = (fputs out ;; edns0_walk m rd' optlen').
Proof.
  intros H E. unfold edns0_walk at 1. cbn.
  destruct (optlen >=? 4) eqn:E4; [|lia]. rewrite E.
  pose proof (edns0_option_next _ _ _ _ _ _ H E) as (_ & Hol & Hlen).
  destruct (edns0_loop_fuel m (S (Z.to_nat optlen')) rd' optlen') as [k Hk];
    [lia | lia |].
  unfold edns0_walk. rewrite Hk.
  assert (Hle : (S (Z.to_nat optlen') <= Z.to_nat optlen)%nat) by lia.
  rewrite (edns0_loop_mono m _ _ _ _ _ Hle Hk).
  reflexivity.
Qed.

(** ** What the walk keeps *)

Lemma edns0_reach_inv (m : list byte) rd0 optlen0 out rd optlen :
  edns0_reach m rd0 optlen0 out rd optlen ->
  0 <= optlen0 < 65536 ->
  rd + optlen = rd0 + optlen0 /\ rd0 <= rd /\ 0 <= optlen <= optlen0.
Proof.
  induction 1 as [rd optlen | rd optlen out1 rd1 optlen1 out2 rd2 optlen2 H4 E R IH];
    intros Hol; [lia|].
  apply edns0_option_next in E; [|lia]. destruct E as (-> & -> & Hlen).
  assert (Hol1 : 0 <= optlen - 4 - be16_at m (rd + 2) < 65536) by lia.
  specialize (IH Hol1). lia.
Qed.

Lemma edns0_walk_reach (m : list byte) rd0 optlen0 out rd optlen :
  edns0_reach m rd0 optlen0 out rd optlen ->
  0 <= optlen0 < 65536 ->
  edns0_walk m rd0 optlen0 = (fputs out ;; edns0_walk m rd optlen).
Proof.
  induction 1 as [rd optlen | rd optlen out1 rd1 optlen1 out2 rd2 optlen2 H4 E R IH];
    intros Hol.
  - now rewrite fputs_nil.
  - assert (Hol' : 4 <= optlen < 65536) by lia.
    rewrite (edns0_walk_next _ _ _ _ _ _ Hol' E).
    pose proof (edns0_option_next _ _ _ _ _ _ Hol' E) as (_ & Hol1 & Hlen).
    rewrite IH by lia. now rewrite fputs_app.
Qed.

Lemma u_short_range (x : Z) : 0 <= u_short x < 65536.
Proof. unfold u_short. apply Z.mod_pos_bound. lia. Qed.

(** An option list inside the message is walked without reading outside
    it: the walk ends, by the end of the list or by bailing out. *)
Lemma edns0_walk_defined (m : list byte) (n : nat) : forall rd optlen,
  (Z.to_nat optlen <= n)%nat ->
  0 <= rd -> 0 <= optlen < 65536 -> rd + optlen <= Z.of_nat (List.length m) ->
  exists out c, edns0_walk m rd optlen = Some (out, c).
Proof.
  induction n as [|n IH]; intros rd optlen Hn Hrd Hol Hin.
  - rewrite edns0_walk_exit by lia. unfold ret. eauto.
  - destruct (Z.lt_ge_cases optlen 4) as [Hlt|Hge].
    + rewrite edns0_walk_exit by lia. unfold ret. eauto.
    + assert (Hol4 : 4 <= optlen < 65536) by lia.
      pose proof (edns0_option_in m rd optlen Hrd Hol4 Hin) as E. cbv zeta in E.
      pose proof (be16_at_range m (rd + 2)) as Hlen.
      destruct (be16_at m (rd + 2) >? optlen - 4) eqn:Egt.
      { rewrite (edns0_walk_bail _ _ _ _ Hge E). eauto. }
      assert (Hnext : exists out c,
                edns0_walk m (rd + 4 + be16_at m (rd + 2))
                  (optlen - 4 - be16_at m (rd + 2)) = Some (out, c))
        by (apply IH; lia).
      destruct Hnext as (out & c & Hw).
      destruct (be16_at m rd =? 8).
      * destruct (be16_at m (rd + 2) <? 4).
        { rewrite (edns0_walk_bail _ _ _ _ Hge E). eauto. }
        rewrite (edns0_walk_next _ _ _ _ _ _ Hol4 E), Hw. cbn. eauto.
      * rewrite (edns0_walk_next _ _ _ _ _ _ Hol4 E), Hw. cbn. eauto.
Qed.

(** ** A record outside the question section *)

Lemma dump_dns_rr_rdata (msg : ns_msg) (rr : ns_rr) (sect : ns_sect) out c :
  sect <> ns_s_qd ->
  dump_rdata msg rr = Some (out, c) ->
  dump_dns_rr msg rr sect =
    Some (rr_head rr ++ out ++
          match c with
          | Break EmptyString => EmptyString
          | Break buf => "," ++ buf
          | GotoError => rr_fallback rr
          end, tt).
Proof.
  intros Hs E. unfold dump_dns_rr, rr_head, rr_fallback.
  destruct sect; [congruence | | |];
    rewrite E; rewrite !bind_fputs; destruct c as [[|ch buf]|]; cbn;
    rewrite ?append_nil_r, ?append_assoc; reflexivity.
Qed.

(** An OPT record inside the message is always written. *)
Lemma dump_dns_rr_opt_defined (msg : ns_msg) (rr : ns_rr) (sect : ns_sect) :
  ns_rr_type rr = ns_t_opt ->
  rr_in_msg msg rr ->
  exists out, dump_dns_rr msg rr sect = Some (out, tt).
Proof.
  intros Ht [Hrd Hin].
  destruct sect; [unfold dump_dns_rr; cbn; eauto | | |].
  all: destruct (edns0_walk_defined (_msg msg) _ (ns_rr_rdata rr)
                   (u_short (ns_rr_rdlen rr)) (Nat.le_refl _) Hrd
                   (u_short_range _) Hin) as (out & c & Hw).
  all: assert (D : dump_rdata msg rr = Some (edns0_header rr ++ out, c))
         by (unfold dump_rdata; rewrite Ht;
             cbn [Z.eqb ns_t_opt ns_t_soa ns_t_a ns_t_aaaa ns_t_mx
                  ns_t_ns ns_t_ptr ns_t_cname Pos.eqb orb];
             unfold dump_edns0; rewrite Hw; reflexivity).
  all: erewrite dump_dns_rr_rdata by (try discriminate; exact D); eauto.
Qed.

(** An OPT record whose walk bails out at the option at [rd]. *)
Lemma dump_dns_rr_opt_bail (msg : ns_msg) (rr : ns_rr) (sect : ns_sect)
    out rd optlen out' :
  sect <> ns_s_qd ->
  ns_rr_type rr = ns_t_opt ->
  edns0_reach (_msg msg) (ns_rr_rdata rr) (u_short (ns_rr_rdlen rr)) out rd optlen ->
  4 <= optlen ->
  edns0_option (_msg msg) rd optlen = Some (out', Bail) ->
  dump_dns_rr msg rr sect =
    Some (rr_head rr ++ edns0_header rr ++ out ++ out' ++ rr_fallback rr, tt).
Proof.
  intros Hs Ht R H4 E.
  rewrite (dump_dns_rr_rdata msg rr sect (edns0_header rr ++ out ++ out') GotoError Hs).
  - now rewrite !append_assoc.
  - unfold dump_rdata. rewrite Ht. cbn [Z.eqb ns_t_opt ns_t_soa ns_t_a ns_t_aaaa ns_t_mx
      ns_t_ns ns_t_ptr ns_t_cname Pos.eqb orb].
    unfold dump_edns0.
    rewrite (edns0_walk_reach _ _ _ _ _ _ R (u_short_range _)).
    rewrite (edns0_walk_bail _ _ _ _ H4 E). reflexivity.
Qed.

End OptionWalk.

Lemma edns0_reach_one {lib : Resolver} (m : list byte) rd optlen out rd1 optlen1 :
  4 <= optlen ->
  edns0_option m rd optlen = Some (out, Next rd1 optlen1) ->
  edns0_reach m rd optlen out rd1 optlen1.
Proof.
  intros H E. rewrite <- (append_nil_r out).
  eapply reach_next; [exact H | exact E | apply reach_here].
Qed.

Lemma inet_ntop4_nonempty (src : list Z) :
  exists c s, inet_ntop4 src = String c s.
Proof.
  unfold inet_ntop4. destruct (fmt_d (nth 0 src 0)); cbn; eauto.
Qed.

(** * The claims *)

Section Claims.

Context {lib : Resolver}.

(** C1 (amended). In an OPT record outside the question section, when the
    walk comes to an option whose declared length (the u16 after the option
    code) exceeds the rdata bytes left after the option's four header bytes,
    the walk bails out and no further option is read; the record's output
    ends with the fallback [,[N]], N the record's rdata length, after what
    was written before: the record head, the edns0 header, the entries of
    the options walked, and the [edns0[code=..,codelen=..] ] entry of the
    offending option. *)
Theorem C1_opt_overrun_appends_fallback
    (msg : ns_msg) (rr : ns_rr) (sect : ns_sect) (out : string) (rd optlen : Z) :
  sect <> ns_s_qd ->
  ns_rr_type rr = ns_t_opt ->
  rr_in_msg msg rr ->
  edns0_reach (_msg msg) (ns_rr_rdata rr) (u_short (ns_rr_rdlen rr)) out rd optlen ->
  4 <= optlen ->
  optlen - 4 < be16_at (_msg msg) (rd + 2) ->
  edns0_option (_msg msg) rd optlen =
    Some (edns0_entry (be16_at (_msg msg) rd) (be16_at (_msg msg) (rd + 2)), Bail) /\
  dump_dns_rr msg rr sect =
    Some (rr_head rr ++ edns0_header rr ++ out ++
          edns0_entry (be16_at (_msg msg) rd) (be16_at (_msg msg) (rd + 2)) ++
          rr_fallback rr, tt).
Proof.
  intros Hs Ht [Hrd Hin] R H4 Hover.
  pose proof (u_short_range (ns_rr_rdlen rr)) as Hlen.
  pose proof (edns0_reach_inv _ _ _ _ _ _ R Hlen) as (Hsum & Hge & Hol).
  unfold ns_msg_end in Hin.
  assert (E : edns0_option (_msg msg) rd optlen =
    Some (edns0_entry (be16_at (_msg msg) rd) (be16_at (_msg msg) (rd + 2)), Bail)).
  { rewrite edns0_option_in by lia. cbv zeta.
    destruct (be16_at (_msg msg) (rd + 2) >? optlen - 4) eqn:E; [reflexivity | lia]. }
  split; [exact E|].
  exact (dump_dns_rr_opt_bail msg rr sect out rd optlen _ Hs Ht R H4 E).
Qed.

(** C2. At every loop head of the option walk of an OPT record, the bytes
    consumed and the bytes left add up to the rdata length, so the cursor is
    never beyond the rdata; and a turn that goes on to the next option has
    advanced the cursor by the four header bytes and exactly the option's
    declared length, whatever the option's code and payload. *)
Theorem C2_option_walk_stays_in_rdata
    (msg : ns_msg) (rr : ns_rr) (out : string) (rd optlen : Z) :
  edns0_reach (_msg msg) (ns_rr_rdata rr) (u_short (ns_rr_rdlen rr)) out rd optlen ->
  (rd - ns_rr_rdata rr) + optlen = u_short (ns_rr_rdlen rr) /\
  0 <= rd - ns_rr_rdata rr <= u_short (ns_rr_rdlen rr) /\
  forall out1 rd1 optlen1,
    4 <= optlen ->
    edns0_option (_msg msg) rd optlen = Some (out1, Next rd1 optlen1) ->
    rd1 = rd + 4 + be16_at (_msg msg) (rd + 2) /\
    optlen1 = optlen - 4 - be16_at (_msg msg) (rd + 2) /\
    rd1 - ns_rr_rdata rr <= u_short (ns_rr_rdlen rr).
Proof.
  intros R.
  pose proof (u_short_range (ns_rr_rdlen rr)) as Hlen.
  pose proof (edns0_reach_inv _ _ _ _ _ _ R Hlen) as (Hsum & Hge & Hol).
  repeat split; try lia.
  all: intros; match goal with
       | E : edns0_option _ _ _ = Some _ |- _ =>
           apply edns0_option_next in E; [|lia]; lia
       end.
Qed.

(** C10. In an OPT record outside the question section, at a client-subnet
    option (code 8) whose declared length is less than 4 and does not exceed
    the rdata bytes left, the turn writes the option's entry and bails out
    without decoding family, masks or address, and the record's output ends
    with the fallback [,[N]]. *)
Theorem C10_short_client_subnet_bails
    (msg : ns_msg) (rr : ns_rr) (sect : ns_sect) (out : string) (rd optlen : Z) :
  sect <> ns_s_qd ->
  ns_rr_type rr = ns_t_opt ->
  rr_in_msg msg rr ->
  edns0_reach (_msg msg) (ns_rr_rdata rr) (u_short (ns_rr_rdlen rr)) out rd optlen ->
  4 <= optlen ->
  be16_at (_msg msg) rd = 8 ->
  be16_at (_msg msg) (rd + 2) < 4 ->
  be16_at (_msg msg) (rd + 2) <= optlen - 4 ->
  edns0_option (_msg msg) rd optlen =
    Some (edns0_entry 8 (be16_at (_msg msg) (rd + 2)), Bail) /\
  dump_dns_rr msg rr sect =
    Some (rr_head rr ++ edns0_header rr ++ out ++
          edns0_entry 8 (be16_at (_msg msg) (rd + 2)) ++ rr_fallback rr, tt).
Proof.
  intros Hs Ht [Hrd Hin] R H4 Hcode Hshort Hfits.
  pose proof (u_short_range (ns_rr_rdlen rr)) as Hlen.
  pose proof (edns0_reach_inv _ _ _ _ _ _ R Hlen) as (Hsum & Hge & Hol).
  unfold ns_msg_end in Hin.
  assert (E : edns0_option (_msg msg) rd optlen =
    Some (edns0_entry 8 (be16_at (_msg msg) (rd + 2)), Bail)).
  { rewrite edns0_option_in by lia. cbv zeta. rewrite Hcode.
    destruct (be16_at (_msg msg) (rd + 2) >? optlen - 4) eqn:E; [lia|].
    cbn [Z.eqb Pos.eqb].
    destruct (be16_at (_msg msg) (rd + 2) <? 4) eqn:E4; [reflexivity | lia]. }
  split; [exact E|].
  exact (dump_dns_rr_opt_bail msg rr sect out rd optlen _ Hs Ht R H4 E).
Qed.

(** C4. A client-subnet option (code 8) inside the rdata whose declared
    length is at least 4 and fits the bytes left is written as its entry
    followed by [edns0_client_subnet=<addr>/<source_mask> (scope
    <scope_mask>)]: family is the u16 at the payload start, the masks are
    the two bytes after it, the address is the rest of the payload, at most
    16 bytes, zero-padded to 16, as IPv4 text for family 1, IPv6 text for
    family 2, and [<unknown>] after an [unknown AFI] note otherwise; the walk
    then goes on after the option's declared length. *)
Theorem C4_client_subnet_option (m : list byte) (rd optlen : Z) :
  0 <= rd ->
  4 <= optlen < 65536 ->
  rd + optlen <= Z.of_nat (List.length m) ->
  be16_at m rd = 8 ->
  4 <= be16_at m (rd + 2) <= optlen - 4 ->
  edns0_option m rd optlen =
    Some (edns0_entry 8 (be16_at m (rd + 2)) ++
          client_subnet_rendering m (rd + 4) (be16_at m (rd + 2)),
          Next (rd + 4 + be16_at m (rd + 2)) (optlen - 4 - be16_at m (rd + 2))).
Proof.
  intros Hrd Hol Hin Hcode Hlen.
  rewrite edns0_option_in by lia. cbv zeta. rewrite Hcode.
  destruct (be16_at m (rd + 2) >? optlen - 4) eqn:E; [lia|].
  cbn [Z.eqb Pos.eqb].
  destruct (be16_at m (rd + 2) <? 4) eqn:E4; [lia | reflexivity].
Qed.

(** C3 (amended). For an SOA record outside the question section whose two
    leading names decompress, the output is the record head, [,mname,rname],
    and then: the fallback [,[N]] when fewer than 20 bytes lie between the
    end of the second name and the end of the message buffer; otherwise the
    five big-endian 32-bit fields read there, serial, refresh, retry, expire,
    minimum, in that order.  An rdata inside the message with at least 20
    bytes after the names is of the second kind. *)
Theorem C3_soa_record
    (msg : ns_msg) (rr : ns_rr) (sect : ns_sect) (n1 n2 : Z) (mname rname : string) :
  sect <> ns_s_qd ->
  ns_rr_type rr = ns_t_soa ->
  ns_name_uncompress (_msg msg) (ns_rr_rdata rr) NS_MAXDNAME = Some (n1, mname) ->
  ns_name_uncompress (_msg msg) (ns_rr_rdata rr + n1) NS_MAXDNAME = Some (n2, rname) ->
  0 <= ns_rr_rdata rr + n1 + n2 ->
  dump_dns_rr msg rr sect =
    Some (rr_head rr ++ "," ++ mname ++ "," ++ rname ++
          (if ns_msg_end msg - (ns_rr_rdata rr + n1 + n2) <? 20
           then rr_fallback rr
           else "," ++ soa_numbers (_msg msg) (ns_rr_rdata rr + n1 + n2)), tt) /\
  (rr_in_msg msg rr -> n1 + n2 + 20 <= u_short (ns_rr_rdlen rr) ->
   dump_dns_rr msg rr sect =
     Some (rr_head rr ++ "," ++ mname ++ "," ++ rname ++ "," ++
           soa_numbers (_msg msg) (ns_rr_rdata rr + n1 + n2), tt)).
Proof.
  intros Hs Ht E1 E2 Hrd.
  set (rd2 := ns_rr_rdata rr + n1 + n2) in *.
  cut (dump_dns_rr msg rr sect =
         Some (rr_head rr ++ "," ++ mname ++ "," ++ rname ++
               (if ns_msg_end msg - rd2 <? 20 then rr_fallback rr
                else "," ++ soa_numbers (_msg msg) rd2), tt)).
  { intros R. split; [exact R|]. intros [_ Hin] Hlen. rewrite R.
    destruct (ns_msg_end msg - rd2 <? 20) eqn:E20; [|reflexivity].
    unfold rd2 in E20. lia. }
  assert (D : dump_rdata msg rr =
    Some ("," ++ mname ++ "," ++ rname,
          if ns_msg_end msg - rd2 <? 20 then GotoError
          else Break (soa_numbers (_msg msg) rd2))).
  { unfold dump_rdata. rewrite Ht. cbn [Z.eqb ns_t_soa Pos.eqb].
    unfold dump_soa. rewrite E1, E2. fold rd2.
    change (5 * NS_INT32SZ) with 20.
    rewrite !bind_fputs.
    destruct (ns_msg_end msg - rd2 <? 20) eqn:E20.
    - cbn. now rewrite append_nil_r.
    - unfold ns_msg_end in E20.
      rewrite (MY_GET32_in _ rd2) by lia. rewrite bind_some, fputs_nil.
      rewrite (MY_GET32_in _ (rd2 + 4)) by lia. rewrite bind_some, fputs_nil.
      rewrite (MY_GET32_in _ (rd2 + 4 + 4)) by lia. rewrite bind_some, fputs_nil.
      rewrite (MY_GET32_in _ (rd2 + 4 + 4 + 4)) by lia. rewrite bind_some, fputs_nil.
      rewrite (MY_GET32_in _ (rd2 + 4 + 4 + 4 + 4)) by lia. rewrite bind_some, fputs_nil.
      replace (rd2 + 4 + 4) with (rd2 + 8) by lia.
      replace (rd2 + 8 + 4) with (rd2 + 12) by lia.
      replace (rd2 + 12 + 4) with (rd2 + 16) by lia.
      cbn. now rewrite append_nil_r. }
  rewrite (dump_dns_rr_rdata msg rr sect _ _ Hs D).
  destruct (ns_msg_end msg - rd2 <? 20).
  - now rewrite !append_assoc.
  - unfold soa_numbers. destruct (fmt_u (be32_at (_msg msg) rd2)); cbn;
      now rewrite !append_assoc.
Qed.

(** C7 (amended). For an A record outside the question section, when fewer
    than 4 bytes lie between the start of its rdata and the end of the
    message buffer the record takes the fallback [,[N]]; otherwise the rdata
    field is the dotted-decimal text of the 4 bytes at the start of the
    rdata.  An rdata of at least 4 bytes inside the message is of the second
    kind. *)
Theorem C7_a_record (msg : ns_msg) (rr : ns_rr) (sect : ns_sect) :
  sect <> ns_s_qd ->
  ns_rr_type rr = ns_t_a ->
  0 <= ns_rr_rdata rr ->
  dump_dns_rr msg rr sect =
    Some (rr_head rr ++
          (if ns_msg_end msg - ns_rr_rdata rr <? 4 then rr_fallback rr
           else "," ++ inet_ntop4 (bytes_at (_msg msg) (ns_rr_rdata rr) 4)), tt) /\
  (rr_in_msg msg rr -> 4 <= u_short (ns_rr_rdlen rr) ->
   dump_dns_rr msg rr sect =
     Some (rr_head rr ++ "," ++
           inet_ntop4 (bytes_at (_msg msg) (ns_rr_rdata rr) 4), tt)).
Proof.
  intros Hs Ht Hrd.
  assert (D : dump_rdata msg rr =
    Some (EmptyString,
          if ns_msg_end msg - ns_rr_rdata rr <? 4 then GotoError
          else Break (inet_ntop4 (bytes_at (_msg msg) (ns_rr_rdata rr) 4)))).
  { unfold dump_rdata. rewrite Ht. cbn [Z.eqb ns_t_soa ns_t_a Pos.eqb].
    destruct (ns_msg_end msg - ns_rr_rdata rr <? 4) eqn:E4; [reflexivity|].
    unfold ns_msg_end in E4.
    rewrite read_bytes_in by lia. reflexivity. }
  assert (R : dump_dns_rr msg rr sect =
    Some (rr_head rr ++
          (if ns_msg_end msg - ns_rr_rdata rr <? 4 then rr_fallback rr
           else "," ++ inet_ntop4 (bytes_at (_msg msg) (ns_rr_rdata rr) 4)), tt)).
  { rewrite (dump_dns_rr_rdata msg rr sect _ _ Hs D).
    destruct (ns_msg_end msg - ns_rr_rdata rr <? 4); [reflexivity|].
    destruct (inet_ntop4_nonempty (bytes_at (_msg msg) (ns_rr_rdata rr) 4))
      as (c & t & ->).
    reflexivity. }
  split; [exact R|].
  intros [_ Hin] Hlen. rewrite R.
  destruct (ns_msg_end msg - ns_rr_rdata rr <? 4) eqn:E4; [lia | reflexivity].
Qed.

(** ** The head of a record *)

(** A record of the question section is its first [fprintf] and nothing
    more: no ttl, nothing of the rdata. *)
Lemma dump_dns_rr_question (msg : ns_msg) (rr : ns_rr) :
  dump_dns_rr msg rr ns_s_qd = Some (rr_question rr, tt).
Proof. unfold dump_dns_rr. cbn. now rewrite append_nil_r. Qed.

(** The head is [name,class,type] when the class or the type is in the
    library's tables, or their numbers are printed into different buffers. *)
Lemma rr_question_exact (rr : ns_rr) :
  (forall b s b' s',
     p_class (ns_rr_class rr) = Static b s ->
     p_type (ns_rr_type rr) = Static b' s' -> b <> b') ->
  rr_question rr =
    ns_rr_name rr ++ "," ++ text_of (p_class (ns_rr_class rr)) ++ "," ++
    text_of (p_type (ns_rr_type rr)).
Proof.
  intros Hd. unfold rr_question. cbv zeta.
  destruct (p_class (ns_rr_class rr)) as [c|b c] eqn:Ec;
    destruct (p_type (ns_rr_type rr)) as [t|b' t] eqn:Et;
    try (destruct args_right_to_left; reflexivity).
  specialize (Hd b c b' t eq_refl eq_refl). cbn [text_after text_of].
  assert (E : Nat.eqb b b' = false) by now apply Nat.eqb_neq.
  assert (E' : Nat.eqb b' b = false) by (apply Nat.eqb_neq; congruence).
  rewrite E, E'. destruct args_right_to_left; reflexivity.
Qed.

(** When both numbers are printed into one buffer, the head shows one of
    them twice: that of the class when the arguments are evaluated from the
    right, that of the type otherwise. *)
Lemma rr_question_aliased (rr : ns_rr) (b : nat) (c t : string) :
  p_class (ns_rr_class rr) = Static b c ->
  p_type (ns_rr_type rr) = Static b t ->
  rr_question rr =
    ns_rr_name rr ++ "," ++ (if args_right_to_left then c else t) ++ "," ++
    (if args_right_to_left then c else t).
Proof.
  intros Ec Et. unfold rr_question. cbv zeta. rewrite Ec, Et.
  cbn [text_after text_of]. rewrite Nat.eqb_refl.
  destruct args_right_to_left; reflexivity.
Qed.

(** C5. When the parse of the buffer fails, [dump_dns] writes the header
    prefix [ <endline>dns ] and the description of the error, and nothing
    else. *)
Theorem C5_parse_failure (payload : list byte) (endline : string) (errno : Z) :
  ns_initparse payload = inl errno ->
  dump_dns payload endline =
    Some (" " ++ endline ++ "dns " ++ strerror errno, tt).
Proof.
  intros E. unfold dump_dns. rewrite E. cbn.
  now rewrite !append_assoc.
Qed.

(** ** Sections *)

Lemma dump_dns_sect_loop_ok (msg : ns_msg) (sect : ns_sect) (endline : string)
    (rrs : list ns_rr) : forall (txts : list string) (rrnum : nat) (sep : string),
  map (fun i => ns_parserr msg sect (Z.of_nat i)) (seq rrnum (List.length rrs)) =
    map inr rrs ->
  map (fun rr => dump_dns_rr msg rr sect) rrs = map (fun t => Some (t, tt)) txts ->
  dump_dns_sect_loop msg sect endline (List.length rrs) (Z.of_nat rrnum) sep =
    Some (section_entries endline sep txts, tt).
Proof.
  induction rrs as [|rr rrs IH]; intros [|t txts] rrnum sep Hrec Htxt;
    try discriminate; [reflexivity|].
  cbn [List.length seq map] in Hrec, Htxt.
  injection Hrec as Hrr Hrec. injection Htxt as Ht Htxt.
  cbn [dump_dns_sect_loop List.length section_entries].
  rewrite Hrr, Ht.
  replace (Z.of_nat rrnum + 1) with (Z.of_nat (S rrnum)) by lia.
  rewrite (IH txts (S rrnum) endline Hrec Htxt).
  cbn. rewrite ?append_assoc. reflexivity.
Qed.

Lemma dump_dns_sect_ok (msg : ns_msg) (sect : ns_sect) (endline : string)
    (rrs : list ns_rr) (txts : list string) :
  section_records msg sect = map inr rrs ->
  map (fun rr => dump_dns_rr msg rr sect) rrs = map (fun t => Some (t, tt)) txts ->
  dump_dns_sect msg sect endline =
    Some (section_rendering msg sect endline txts, tt) /\
  List.length txts = Z.to_nat (ns_msg_count msg sect).
Proof.
  intros Hrec Htxt.
  assert (Hn : List.length rrs = Z.to_nat (ns_msg_count msg sect)).
  { apply (f_equal (@List.length _)) in Hrec.
    unfold section_records in Hrec.
    now rewrite !length_map, length_seq in Hrec. }
  assert (Hm : List.length txts = List.length rrs).
  { apply (f_equal (@List.length _)) in Htxt. now rewrite !length_map in Htxt. }
  split; [|congruence].
  unfold dump_dns_sect, section_rendering.
  destruct (ns_msg_count msg sect =? 0) eqn:E0; [reflexivity|].
  unfold section_records in Hrec. rewrite <- Hn in *.
  pose proof (dump_dns_sect_loop_ok msg sect endline rrs txts 0 EmptyString Hrec Htxt)
    as L.
  cbn [Z.of_nat] in L. rewrite L.
  cbn. rewrite ?append_assoc. reflexivity.
Qed.

Lemma FLAG_some (msg : ns_msg) (t : string) (f : ns_flag) (sep : string) :
  exists o sep', FLAG msg t f sep = Some (o, sep').
Proof.
  unfold FLAG. destruct (ns_msg_getflag msg f =? 0); cbn;
    eexists; eexists; reflexivity.
Qed.

Lemma dump_dns_header_some (msg : ns_msg) :
  exists h, dump_dns_header msg = Some (h, tt).
Proof.
  unfold dump_dns_header. rewrite bind_fputs.
  repeat match goal with
         | |- context [FLAG ?m ?t ?f ?s] =>
             let o := fresh "o" in
             let s' := fresh "sep" in
             let E := fresh "E" in
             destruct (FLAG_some m t f s) as (o & s' & E); rewrite E, bind_some, bind_fputs
         end.
  cbn. eauto.
Qed.

(** A section is written whenever each record [ns_parserr] yields is:
    as [ 0], or starting with the count of the header. *)
Lemma dump_dns_sect_loop_written (msg : ns_msg) (sect : ns_sect) (endline : string) :
  (forall i rr, ns_parserr msg sect i = inr rr ->
                exists t, dump_dns_rr msg rr sect = Some (t, tt)) ->
  forall (todo : nat) (rrnum : Z) (sep : string),
  exists out, dump_dns_sect_loop msg sect endline todo rrnum sep = Some (out, tt).
Proof.
  intros Hw. induction todo as [|todo IH]; intros rrnum sep.
  - unfold dump_dns_sect_loop, ret. eauto.
  - cbn [dump_dns_sect_loop].
    destruct (ns_parserr msg sect rrnum) as [errno|rr] eqn:E; [unfold fputs; eauto|].
    destruct (Hw _ _ E) as [t ->].
    destruct (IH (rrnum + 1) endline) as [out ->].
    cbn. eauto.
Qed.

Lemma dump_dns_sect_written (msg : ns_msg) (sect : ns_sect) (endline : string) :
  (forall i rr, ns_parserr msg sect i = inr rr ->
                exists t, dump_dns_rr msg rr sect = Some (t, tt)) ->
  exists sec,
    dump_dns_sect msg sect endline = Some (sec, tt) /\
    (ns_msg_count msg sect = 0 -> sec = " 0") /\
    (ns_msg_count msg sect <> 0 ->
     exists body, sec = " " ++ endline ++ fmt_d (ns_msg_count msg sect) ++ body).
Proof.
  intros Hw. unfold dump_dns_sect.
  destruct (ns_msg_count msg sect =? 0) eqn:E0.
  - exists " 0". split; [reflexivity|]. split; [reflexivity | lia].
  - destruct (dump_dns_sect_loop_written msg sect endline Hw
                (Z.to_nat (ns_msg_count msg sect)) 0 EmptyString) as [out ->].
    eexists. split; [cbn; reflexivity|]. split; [lia|].
    intros _. exists out. rewrite ?append_assoc. reflexivity.
Qed.

Lemma texts_exist (msg : ns_msg) (sect : ns_sect) (rrs : list ns_rr) :
  (forall rr, In rr rrs -> exists t, dump_dns_rr msg rr sect = Some (t, tt)) ->
  exists txts,
    map (fun rr => dump_dns_rr msg rr sect) rrs = map (fun t => Some (t, tt)) txts.
Proof.
  induction rrs as [|rr rrs IH]; intros Hw.
  - now exists [].
  - destruct (Hw rr (or_introl eq_refl)) as [t Ht].
    destruct IH as [txts Htxts]; [intros r Hr; apply Hw; now right|].
    exists (t :: txts). cbn [map]. now rewrite Ht, Htxts.
Qed.

(** C6. For a message that parses and whose records are each written,
    [dump_dns] writes the header and then the four sections in the order
    question, answer, authority, additional, each as [dump_dns_sect] writes
    it whatever became of the sections before it.  A section whose header
    count is 0 is written [ 0]; any other starts with the count N of the
    header; and when [ns_parserr] succeeds at every index of that section,
    the count is followed by exactly N entries in index order, each after a
    space, with the caller's separator before each but the first. *)
Theorem C6_sections_in_order
    (payload : list byte) (msg : ns_msg) (endline : string) :
  ns_initparse payload = inr msg ->
  (forall s i rr, ns_parserr msg s i = inr rr ->
                  exists t, dump_dns_rr msg rr s = Some (t, tt)) ->
  exists (h : string) (sec : ns_sect -> string),
    dump_dns_header msg = Some (h, tt) /\
    (forall s, dump_dns_sect msg s endline = Some (sec s, tt)) /\
    dump_dns payload endline =
      Some (" " ++ endline ++ "dns " ++ h ++
            sec ns_s_qd ++ sec ns_s_an ++ sec ns_s_ns ++ sec ns_s_ar, tt) /\
    forall s,
      (ns_msg_count msg s = 0 -> sec s = " 0") /\
      (ns_msg_count msg s <> 0 ->
       exists body, sec s = " " ++ endline ++ fmt_d (ns_msg_count msg s) ++ body) /\
      (forall rrs, section_records msg s = map inr rrs ->
         exists txts,
           map (fun rr => dump_dns_rr msg rr s) rrs =
             map (fun t => Some (t, tt)) txts /\
           List.length txts = Z.to_nat (ns_msg_count msg s) /\
           sec s = section_rendering msg s endline txts).
Proof.
  intros Hparse Hw.
  destruct (dump_dns_header_some msg) as [h Hh].
  destruct (dump_dns_sect_written msg ns_s_qd endline (Hw ns_s_qd))
    as (q & Hq & Hq0 & HqN).
  destruct (dump_dns_sect_written msg ns_s_an endline (Hw ns_s_an))
    as (a & Ha & Ha0 & HaN).
  destruct (dump_dns_sect_written msg ns_s_ns endline (Hw ns_s_ns))
    as (n & Hn & Hn0 & HnN).
  destruct (dump_dns_sect_written msg ns_s_ar endline (Hw ns_s_ar))
    as (r & Hr & Hr0 & HrN).
  exists h.
  exists (fun s => match s with
                   | ns_s_qd => q | ns_s_an => a | ns_s_ns => n | ns_s_ar => r
                   end).
  assert (Hsec : forall s,
            dump_dns_sect msg s endline =
              Some (match s with
                    | ns_s_qd => q | ns_s_an => a | ns_s_ns => n | ns_s_ar => r
                    end, tt))
    by (intros []; assumption).
  split; [exact Hh|]. split; [exact Hsec|]. split.
  - unfold dump_dns. rewrite Hparse, Hh, Hq, Ha, Hn, Hr.
    cbn. rewrite ?append_assoc, ?append_nil_r. reflexivity.
  - intros s. split; [destruct s; assumption|]. split; [destruct s; assumption|].
    intros rrs Hrec.
    destruct (texts_exist msg s rrs) as [txts Htxts].
    { intros rr Hin.
      assert (Hin' : In (inr rr) (section_records msg s))
        by (rewrite Hrec; now apply in_map).
      unfold section_records in Hin'. apply in_map_iff in Hin'.
      destruct Hin' as (i & Hi & _). exact (Hw s _ rr Hi). }
    exists txts. split; [exact Htxts|].
    destruct (dump_dns_sect_ok msg s endline rrs txts Hrec Htxts) as [Hs Hlen].
    split; [exact Hlen|].
    rewrite (Hsec s) in Hs. now inversion Hs.
Qed.

(** ** The question name *)

Lemma get_query_domain_parse_failure (payload : list byte) (errno : Z) :
  ns_initparse payload = inl errno ->
  get_query_domain payload = Some (nl, (strerror errno, None)).
Proof. intros E. unfold get_query_domain. now rewrite E. Qed.

Lemma get_query_domain_no_question (payload : list byte) (msg : ns_msg) :
  ns_initparse payload = inr msg ->
  ns_msg_count msg ns_s_qd = 0 ->
  get_query_domain payload = Some (EmptyString, (EmptyString, None)).
Proof.
  intros E E0. unfold get_query_domain, hostname_from_question. now rewrite E, E0.
Qed.

Lemma get_query_domain_bad_record (payload : list byte) (msg : ns_msg) (errno : Z) :
  ns_initparse payload = inr msg ->
  0 < ns_msg_count msg ns_s_qd ->
  ns_parserr msg ns_s_qd 0 = inl errno ->
  get_query_domain payload = Some ("ns_parserr" ++ nl, (EmptyString, None)).
Proof.
  intros E Hc Er. unfold get_query_domain, hostname_from_question. rewrite E, Er.
  destruct (ns_msg_count msg ns_s_qd =? 0) eqn:E0; [lia|].
  destruct (0 <? ns_msg_count msg ns_s_qd) eqn:E1; [reflexivity | lia].
Qed.

(** The name of the first question, when it fits the 256 bytes of
    [hostname] with its terminator. *)
Lemma get_query_domain_name (payload : list byte) (msg : ns_msg) (rr : ns_rr) :
  ns_initparse payload = inr msg ->
  0 < ns_msg_count msg ns_s_qd ->
  ns_parserr msg ns_s_qd 0 = inr rr ->
  Z.of_nat (String.length (ns_rr_name rr)) < sizeof_hostname ->
  get_query_domain payload = Some (EmptyString, (EmptyString, Some (ns_rr_name rr))).
Proof.
  intros E Hc Er Hlen. unfold get_query_domain, hostname_from_question. rewrite E, Er.
  destruct (ns_msg_count msg ns_s_qd =? 0) eqn:E0; [lia|].
  destruct (0 <? ns_msg_count msg ns_s_qd) eqn:E1; [|lia].
  destruct (Z.of_nat (String.length (ns_rr_name rr)) + 1 >? sizeof_hostname) eqn:E2;
    [lia | reflexivity].
Qed.

(** A longer name is reported and copied all the same, past the end of
    [hostname]. *)
Lemma get_query_domain_overflow (payload : list byte) (msg : ns_msg) (rr : ns_rr) :
  ns_initparse payload = inr msg ->
  0 < ns_msg_count msg ns_s_qd ->
  ns_parserr msg ns_s_qd 0 = inr rr ->
  sizeof_hostname <= Z.of_nat (String.length (ns_rr_name rr)) ->
  get_query_domain payload = None.
Proof.
  intros E Hc Er Hlen. unfold get_query_domain, hostname_from_question. rewrite E, Er.
  destruct (ns_msg_count msg ns_s_qd =? 0) eqn:E0; [lia|].
  destruct (0 <? ns_msg_count msg ns_s_qd) eqn:E1; [|lia].
  destruct (Z.of_nat (String.length (ns_rr_name rr)) + 1 >? sizeof_hostname) eqn:E2;
    [reflexivity | lia].
Qed.

End Claims.

(** * More of the dumper *)

Section Coverage.

Context {lib : Resolver}.

(** ** The other record types *)

Lemma dump_dns_rr_break (msg : ns_msg) (rr : ns_rr) (sect : ns_sect) out buf :
  sect <> ns_s_qd ->
  dump_rdata msg rr = Some (out, Break buf) ->
  dump_dns_rr msg rr sect = Some (rr_head rr ++ out ++ buf_field buf, tt).
Proof.
  intros Hs D. rewrite (dump_dns_rr_rdata msg rr sect out _ Hs D).
  now destruct buf.
Qed.

Lemma dump_dns_rr_error (msg : ns_msg) (rr : ns_rr) (sect : ns_sect) out :
  sect <> ns_s_qd ->
  dump_rdata msg rr = Some (out, GotoError) ->
  dump_dns_rr msg rr sect = Some (rr_head rr ++ out ++ rr_fallback rr, tt).
Proof. intros Hs D. exact (dump_dns_rr_rdata msg rr sect out _ Hs D). Qed.

Lemma dump_name_eq (msg : ns_msg) (rd : Z) :
  dump_name msg rd =
    Some (EmptyString,
          match ns_name_uncompress (_msg msg) rd NS_MAXDNAME with
          | Some (_, buf) => Break buf
          | None => GotoError
          end).
Proof.
  unfold dump_name.
  now destruct (ns_name_uncompress (_msg msg) rd NS_MAXDNAME) as [[n buf]|].
Qed.

(** X1. A record outside the question section whose type has no case of
    its own (any type but SOA, A, AAAA, MX, NS, PTR, CNAME, OPT) is written
    as its head and the fallback [,[N]], whatever its rdata holds. *)
Theorem X1_other_types_fall_back (msg : ns_msg) (rr : ns_rr) (sect : ns_sect) :
  sect <> ns_s_qd ->
  ~ In (ns_rr_type rr) decoded_types ->
  dump_dns_rr msg rr sect = Some (rr_head rr ++ rr_fallback rr, tt).
Proof.
  intros Hs Hno.
  assert (D : dump_rdata msg rr = Some (EmptyString, GotoError)).
  { unfold dump_rdata.
    repeat match goal with
           | |- context [ns_rr_type rr =? ?c] =>
               let E := fresh "E" in
               destruct (ns_rr_type rr =? c) eqn:E;
               [exfalso; apply Hno; apply Z.eqb_eq in E; rewrite E;
                unfold decoded_types; cbn [In]; tauto |]
           end.
    reflexivity. }
  exact (dump_dns_rr_error msg rr sect _ Hs D).
Qed.

(** X2. An AAAA record outside the question section takes the fallback
    when fewer than 16 bytes lie between the start of its rdata and the end
    of the message; otherwise its rdata field is the IPv6 text of the 16
    bytes at the start of the rdata. *)
Theorem X2_aaaa_record (msg : ns_msg) (rr : ns_rr) (sect : ns_sect) :
  sect <> ns_s_qd ->
  ns_rr_type rr = ns_t_aaaa ->
  0 <= ns_rr_rdata rr ->
  dump_dns_rr msg rr sect =
    Some (rr_head rr ++
          (if ns_msg_end msg - ns_rr_rdata rr <? 16 then rr_fallback rr
           else buf_field (inet_ntop6 (bytes_at (_msg msg) (ns_rr_rdata rr) 16))), tt).
Proof.
  intros Hs Ht Hrd.
  destruct (ns_msg_end msg - ns_rr_rdata rr <? 16) eqn:E16.
  - apply (dump_dns_rr_error msg rr sect EmptyString Hs).
    type_case Ht. now rewrite E16.
  - apply (dump_dns_rr_break msg rr sect EmptyString _ Hs).
    type_case Ht. rewrite E16. unfold ns_msg_end in E16.
    rewrite read_bytes_in by lia. reflexivity.
Qed.

(** X3. An MX record outside the question section takes the fallback when
    fewer than 2 bytes lie between the start of its rdata and the end of the
    message.  Otherwise the preference, the big-endian u16 at the start of
    the rdata, is written first; the exchange name decompressed after it
    follows, or, when its decompression fails, the fallback follows the
    preference already written. *)
Theorem X3_mx_record (msg : ns_msg) (rr : ns_rr) (sect : ns_sect) :
  sect <> ns_s_qd ->
  ns_rr_type rr = ns_t_mx ->
  0 <= ns_rr_rdata rr ->
  dump_dns_rr msg rr sect =
    Some (rr_head rr ++
          (if ns_msg_end msg - ns_rr_rdata rr <? 2 then rr_fallback rr
           else "," ++ fmt_u (be16_at (_msg msg) (ns_rr_rdata rr)) ++
                match ns_name_uncompress (_msg msg) (ns_rr_rdata rr + 2) NS_MAXDNAME with
                | Some (_, exchange) => buf_field exchange
                | None => rr_fallback rr
                end), tt).
Proof.
  intros Hs Ht Hrd.
  destruct (ns_msg_end msg - ns_rr_rdata rr <? 2) eqn:E2.
  - apply (dump_dns_rr_error msg rr sect EmptyString Hs).
    type_case Ht. now rewrite E2.
  - assert (D : dump_rdata msg rr =
      Some ("," ++ fmt_u (be16_at (_msg msg) (ns_rr_rdata rr)),
            match ns_name_uncompress (_msg msg) (ns_rr_rdata rr + 2) NS_MAXDNAME with
            | Some (_, buf) => Break buf
            | None => GotoError
            end)).
    { type_case Ht. rewrite E2. unfold ns_msg_end in E2.
      rewrite MY_GET16_in by lia. rewrite bind_some, fputs_nil.
      rewrite dump_name_eq. cbn. now rewrite append_nil_r. }
    destruct (ns_name_uncompress (_msg msg) (ns_rr_rdata rr + 2) NS_MAXDNAME)
      as [[n exchange]|].
    + rewrite (dump_dns_rr_break msg rr sect _ _ Hs D). now rewrite !append_assoc.
    + rewrite (dump_dns_rr_error msg rr sect _ Hs D). now rewrite !append_assoc.
Qed.

(** X4. An NS, PTR or CNAME record outside the question section is written
    with the name decompressed at the start of its rdata, and with the
    fallback when the decompression fails. *)
Theorem X4_name_record (msg : ns_msg) (rr : ns_rr) (sect : ns_sect) :
  sect <> ns_s_qd ->
  In (ns_rr_type rr) [ns_t_ns; ns_t_ptr; ns_t_cname] ->
  dump_dns_rr msg rr sect =
    Some (rr_head rr ++
          match ns_name_uncompress (_msg msg) (ns_rr_rdata rr) NS_MAXDNAME with
          | Some (_, target) => buf_field target
          | None => rr_fallback rr
          end, tt).
Proof.
  intros Hs Hin.
  assert (D : dump_rdata msg rr =
    Some (EmptyString,
          match ns_name_uncompress (_msg msg) (ns_rr_rdata rr) NS_MAXDNAME with
          | Some (_, buf) => Break buf
          | None => GotoError
          end)).
  { cbn [In] in Hin. destruct Hin as [Ht|[Ht|[Ht|[]]]]; symmetry in Ht;
      type_case Ht; apply dump_name_eq. }
  destruct (ns_name_uncompress (_msg msg) (ns_rr_rdata rr) NS_MAXDNAME)
    as [[n target]|].
  - exact (dump_dns_rr_break msg rr sect _ _ Hs D).
  - exact (dump_dns_rr_error msg rr sect _ Hs D).
Qed.

(** X5. An SOA record outside the question section one of whose two
    leading names fails to decompress takes the fallback; when it is the
    second name that fails, the first name is already written and the
    fallback follows it. *)
Theorem X5_soa_name_failure (msg : ns_msg) (rr : ns_rr) (sect : ns_sect) :
  sect <> ns_s_qd ->
  ns_rr_type rr = ns_t_soa ->
  match ns_name_uncompress (_msg msg) (ns_rr_rdata rr) NS_MAXDNAME with
  | Some (n, _) => ns_name_uncompress (_msg msg) (ns_rr_rdata rr + n) NS_MAXDNAME = None
  | None => True
  end ->
  dump_dns_rr msg rr sect =
    Some (rr_head rr ++
          match ns_name_uncompress (_msg msg) (ns_rr_rdata rr) NS_MAXDNAME with
          | Some (_, mname) => "," ++ mname
          | None => EmptyString
          end ++ rr_fallback rr, tt).
Proof.
  intros Hs Ht Hfail.
  destruct (ns_name_uncompress (_msg msg) (ns_rr_rdata rr) NS_MAXDNAME)
    as [[n mname]|] eqn:E1.
  - apply (dump_dns_rr_error msg rr sect _ Hs).
    type_case Ht. unfold dump_soa. rewrite E1, Hfail. cbn.
    now rewrite append_nil_r.
  - apply (dump_dns_rr_error msg rr sect _ Hs).
    type_case Ht. unfold dump_soa. now rewrite E1.
Qed.

(** ** OPT records *)

(** X6. An OPT record outside the question section whose option walk
    comes to the loop head with fewer than 4 rdata bytes left is written as
    its head, the edns0 header and the entries of the options walked, with
    no fallback; the bytes left, if any, are not looked at.  In particular an
    OPT record with fewer than 4 rdata bytes is its head and edns0 header. *)
Theorem X6_opt_walk_complete
    (msg : ns_msg) (rr : ns_rr) (sect : ns_sect) (out : string) (rd optlen : Z) :
  sect <> ns_s_qd ->
  ns_rr_type rr = ns_t_opt ->
  edns0_reach (_msg msg) (ns_rr_rdata rr) (u_short (ns_rr_rdlen rr)) out rd optlen ->
  optlen < 4 ->
  dump_dns_rr msg rr sect = Some (rr_head rr ++ edns0_header rr ++ out, tt).
Proof.
  intros Hs Ht R Hend.
  rewrite (dump_dns_rr_break msg rr sect (edns0_header rr ++ out) EmptyString Hs).
  - cbn [buf_field]. now rewrite !append_assoc, append_nil_r.
  - type_case Ht. unfold dump_edns0.
    rewrite (edns0_walk_reach _ _ _ _ _ _ R (u_short_range _)).
    rewrite (edns0_walk_exit _ _ _ Hend). cbn. now rewrite !append_nil_r.
Qed.


(** X8. For an OPT record outside the question section whose rdata lies
    inside the message, the walk reads nothing outside the message and the
    record is always written; its output starts with the record head and the
    edns0 header, whatever the options are. *)
Theorem X8_opt_header_always_written (msg : ns_msg) (rr : ns_rr) (sect : ns_sect) :
  sect <> ns_s_qd ->
  ns_rr_type rr = ns_t_opt ->
  rr_in_msg msg rr ->
  exists rest,
    dump_dns_rr msg rr sect = Some (rr_head rr ++ edns0_header rr ++ rest, tt).
Proof.
  intros Hs Ht [Hrd Hin].
  destruct (edns0_walk_defined (_msg msg) _ (ns_rr_rdata rr)
              (u_short (ns_rr_rdlen rr)) (Nat.le_refl _) Hrd
              (u_short_range _) Hin) as (out & c & Hw).
  assert (D : dump_rdata msg rr = Some (edns0_header rr ++ out, c))
    by (type_case Ht; unfold dump_edns0; rewrite Hw; reflexivity).
  destruct c as [buf|].
  - exists (out ++ buf_field buf).
    rewrite (dump_dns_rr_break msg rr sect _ _ Hs D). now rewrite !append_assoc.
  - exists (out ++ rr_fallback rr).
    rewrite (dump_dns_rr_error msg rr sect _ Hs D). now rewrite !append_assoc.
Qed.

Lemma bytes_at_length (m : list byte) (n : nat) : forall p,
  List.length (bytes_at m p n) = n.
Proof. induction n as [|n IH]; intros p; cbn; [reflexivity | now rewrite IH]. Qed.

Lemma nth_bytes_at (m : list byte) (n : nat) : forall p i,
  (i < n)%nat -> nth i (bytes_at m p n) 0 = byte_at m (p + Z.of_nat i).
Proof.
  induction n as [|n IH]; intros p i Hi; [lia|].
  destruct i as [|i]; cbn [bytes_at nth].
  - f_equal. lia.
  - rewrite IH by lia. f_equal. lia.
Qed.

(** The bytes of the address buffer of a client-subnet option: those of the
    payload after family and masks, and 0 from the end of the payload on. *)
Lemma nth_client_subnet_address (m : list byte) (p len : Z) (i : nat) :
  (i < 16)%nat ->
  nth i (client_subnet_address m p len) 0 =
    if Z.of_nat i <? len - 4 then byte_at m (p + 4 + Z.of_nat i) else 0.
Proof.
  intros Hi. unfold client_subnet_address.
  rewrite nth_firstn. destruct (Nat.ltb_spec i 16) as [_|]; [|lia].
  destruct (Z.of_nat i <? len - 4) eqn:E.
  - rewrite app_nth1 by (rewrite bytes_at_length; lia).
    apply nth_bytes_at. lia.
  - rewrite app_nth2 by (rewrite bytes_at_length; lia).
    apply nth_repeat.
Qed.

(** X19. For an IPv4 client-subnet option (code 8, family 1) that fits the
    rdata, the address written is made of the payload bytes after family and
    masks, with 0 for each of the four bytes the payload does not hold: a
    prefix of fewer than 4 bytes is accepted and zero-padded, and bytes
    after the fourth are not written. *)
Theorem X19_ipv4_client_subnet_padding (m : list byte) (rd optlen : Z) :
  0 <= rd ->
  4 <= optlen < 65536 ->
  rd + optlen <= Z.of_nat (List.length m) ->
  be16_at m rd = 8 ->
  4 <= be16_at m (rd + 2) <= optlen - 4 ->
  be16_at m (rd + 4) = 1 ->
  edns0_option m rd optlen =
    Some (edns0_entry 8 (be16_at m (rd + 2)) ++
          "edns0_client_subnet=" ++
          fmt_d (if 0 <? be16_at m (rd + 2) - 4 then byte_at m (rd + 8) else 0) ++ "." ++
          fmt_d (if 1 <? be16_at m (rd + 2) - 4 then byte_at m (rd + 9) else 0) ++ "." ++
          fmt_d (if 2 <? be16_at m (rd + 2) - 4 then byte_at m (rd + 10) else 0) ++ "." ++
          fmt_d (if 3 <? be16_at m (rd + 2) - 4 then byte_at m (rd + 11) else 0) ++
          "/" ++ fmt_d (byte_at m (rd + 6)) ++
          " (scope " ++ fmt_d (byte_at m (rd + 7)) ++ ")",
          Next (rd + 4 + be16_at m (rd + 2)) (optlen - 4 - be16_at m (rd + 2))).
Proof.
  intros Hrd Hol Hin Hcode Hlen Hfam.
  rewrite edns0_option_in by lia. cbv zeta. rewrite Hcode.
  destruct (be16_at m (rd + 2) >? optlen - 4) eqn:E; [lia|].
  cbn [Z.eqb Pos.eqb].
  destruct (be16_at m (rd + 2) <? 4) eqn:E4; [lia|].
  unfold client_subnet_rendering. rewrite Hfam.
  cbn [Z.eqb Pos.eqb orb]. unfold inet_ntop4.
  rewrite !nth_client_subnet_address by lia.
  cbn [Z.of_nat Pos.of_succ_nat Pos.succ].
  replace (rd + 4 + 4 + 0) with (rd + 8) by lia.
  replace (rd + 4 + 4 + 1) with (rd + 9) by lia.
  replace (rd + 4 + 4 + 2) with (rd + 10) by lia.
  replace (rd + 4 + 4 + 3) with (rd + 11) by lia.
  replace (rd + 4 + 2) with (rd + 6) by lia.
  replace (rd + 4 + 3) with (rd + 7) by lia.
  rewrite !append_assoc. reflexivity.
Qed.

Lemma land_low_bits (t mask : Z) (n : Z) :
  0 <= n -> Z.land mask (Z.ones n) = 0 -> Z.land t mask mod 2 ^ n = 0.
Proof.
  intros Hn Hm. rewrite <- Z.land_ones by assumption.
  rewrite <- Z.land_assoc, Hm. apply Z.land_0_r.
Qed.

Lemma ttl_version (t : Z) :
  Z.shiftr (Z.land t 0x00ff0000) 16 = (t / 65536) mod 256.
Proof.
  rewrite Z.shiftr_land. change (Z.shiftr 0x00ff0000 16) with (Z.ones 8).
  rewrite Z.land_ones by lia. rewrite Z.shiftr_div_pow2 by lia. reflexivity.
Qed.

Lemma ttl_rcode (t : Z) :
  Z.shiftr (Z.land t 0xff000000) 24 = (t / 16777216) mod 256.
Proof.
  rewrite Z.shiftr_land. change (Z.shiftr 0xff000000 24) with (Z.ones 8).
  rewrite Z.land_ones by lia. rewrite Z.shiftr_div_pow2 by lia. reflexivity.
Qed.

Lemma ttl_do (t : Z) :
  (Z.land t 0x8000 =? 0) = ((t / 32768) mod 2 =? 0).
Proof.
  assert (Hhi : Z.shiftr (Z.land t 0x8000) 15 = (t / 32768) mod 2).
  { rewrite Z.shiftr_land. change (Z.shiftr 0x8000 15) with (Z.ones 1).
    rewrite Z.land_ones by lia. rewrite Z.shiftr_div_pow2 by lia. reflexivity. }
  assert (Hlo : Z.land t 0x8000 mod 2 ^ 15 = 0)
    by (apply land_low_bits; [lia | reflexivity]).
  rewrite Z.shiftr_div_pow2 in Hhi by lia.
  pose proof (Z.div_mod (Z.land t 0x8000) (2 ^ 15) ltac:(lia)) as Hdm.
  destruct (Z.land t 0x8000 =? 0) eqn:E0; destruct ((t / 32768) mod 2 =? 0) eqn:E1;
    try reflexivity; lia.
Qed.

Lemma ttl_z (t : Z) : u_char (Z.land t 0x7fff) = t mod 256.
Proof.
  unfold u_char. change 256 with (2 ^ 8).
  rewrite <- !Z.land_ones by lia. rewrite <- Z.land_assoc. reflexivity.
Qed.

(** X9. The edns0 header of an OPT record unpacks the ttl word as: extended
    rcode, its bits 31-24; version, its bits 23-16; DO, its bit 15; and for
    [z] its low 8 bits only, the field being kept in a [u_char] (bits 14-8
    of the ttl do not show).  [len] is the rdata length and [UDP] the
    class. *)
Theorem X9_edns0_header_fields (rr : ns_rr) :
  0 <= ns_rr_ttl rr < 4294967296 ->
  0 <= ns_rr_class rr < 65536 ->
  0 <= ns_rr_rdlen rr < 65536 ->
  edns0_header rr =
    ",edns0[len=" ++ fmt_d (ns_rr_rdlen rr) ++
    ",UDP=" ++ fmt_d (ns_rr_class rr) ++
    ",ver=" ++ fmt_d ((ns_rr_ttl rr / 65536) mod 256) ++
    ",rcode=" ++ fmt_d (ns_rr_ttl rr / 16777216) ++
    ",DO=" ++ (if (ns_rr_ttl rr / 32768) mod 2 =? 0 then "0" else "1") ++
    ",z=" ++ fmt_d (ns_rr_ttl rr mod 256) ++ "] " ++ backslash ++ nl ++ tab.
Proof.
  intros Httl Hclass Hlen. unfold edns0_header, fmt_lu.
  assert (Ht : u_long (ns_rr_ttl rr) = ns_rr_ttl rr)
    by (unfold u_long; apply Z.mod_small; lia).
  assert (Hc : u_long (u_long (ns_rr_class rr)) = ns_rr_class rr)
    by (unfold u_long; rewrite (Z.mod_small (ns_rr_class rr)) by lia;
        apply Z.mod_small; lia).
  rewrite Ht, Hc, ttl_version, ttl_rcode, ttl_do, ttl_z.
  rewrite (u_short_small (ns_rr_rdlen rr)) by assumption.
  rewrite (u_short_small ((ns_rr_ttl rr / 65536) mod 256))
    by (pose proof (Z.mod_pos_bound (ns_rr_ttl rr / 65536) 256); lia).
  assert (Hr : 0 <= ns_rr_ttl rr / 16777216 < 256)
    by (split; [apply Z.div_pos; lia | apply Z.div_lt_upper_bound; lia]).
  rewrite (Z.mod_small _ 256 Hr).
  rewrite (u_short_small (ns_rr_ttl rr / 16777216)) by lia.
  reflexivity.
Qed.

(** ** The header and the sections *)

Lemma concat_snoc (l : list string) (x : string) :
  String.concat EmptyString (l ++ [x]) = String.concat EmptyString l ++ x.
Proof.
  induction l as [|a l IH]; [reflexivity|].
  destruct l as [|b l].
  - reflexivity.
  - change (String.concat EmptyString ((a :: b :: l) ++ [x]))
      with (a ++ String.concat EmptyString ((b :: l) ++ [x])).
    rewrite IH. change (String.concat EmptyString (a :: b :: l))
      with (a ++ String.concat EmptyString (b :: l)).
    now rewrite append_assoc.
Qed.

Lemma join_flags_snoc (names : list string) (t : string) :
  join_flags (names ++ [t]) = join_flags names ++ sep_of names ++ t.
Proof.
  destruct names as [|n ns]; cbn [join_flags sep_of app].
  - cbn. now rewrite append_nil_r.
  - rewrite map_app. cbn [map]. rewrite concat_snoc. now rewrite !append_assoc.
Qed.

Lemma sep_of_snoc (names : list string) (t : string) : sep_of (names ++ [t]) = "|".
Proof. now destruct names. Qed.

(** One [FLAG] line, after the flags written so far. *)
Lemma FLAG_acc {A} (msg : ns_msg) (t : string) (f : ns_flag) (names : list string)
    (k : string -> io A) :
  (fputs (join_flags names) ;; sep <- FLAG msg t f (sep_of names) ;; k sep) =
  (fputs (join_flags (add_flag msg t f names)) ;; k (sep_of (add_flag msg t f names))).
Proof.
  unfold FLAG, add_flag. destruct (ns_msg_getflag msg f =? 0).
  - now rewrite bind_ret.
  - rewrite join_flags_snoc, sep_of_snoc. unfold bind, fputs, ret.
    destruct (k "|") as [[o b]|]; [|reflexivity].
    now rewrite append_nil_r, !append_assoc.
Qed.

(** X10. The header summary is [opcode,rcode,id] followed by the mnemonics
    of the flags that are set, in the order qr, aa, tc, rd, ra, z, ad, cd:
    a comma before the first of them and a bar before each of the others;
    nothing follows the id when no flag is set. *)
Theorem X10_header_flags (msg : ns_msg) :
  dump_dns_header msg =
    Some (p_opcode (ns_msg_getflag msg ns_f_opcode) ++ "," ++
          p_rcode (ns_msg_getflag msg ns_f_rcode) ++ "," ++
          fmt_u (ns_msg_id msg) ++ join_flags (set_flags msg), tt).
Proof.
  unfold dump_dns_header.
  match goal with
  | |- (fputs _ ;; ?flags) = _ =>
      assert (R : flags = Some (join_flags (set_flags msg), tt))
  end.
  { rewrite <- (fputs_nil (sep <- FLAG msg "qr" ns_f_qr "," ;; _)).
    change (FLAG msg "qr" ns_f_qr ",") with (FLAG msg "qr" ns_f_qr (sep_of [])).
    change (fputs EmptyString) with (fputs (join_flags [])).
    do 8 rewrite FLAG_acc.
    unfold ret. rewrite bind_fputs. now rewrite append_nil_r. }
  rewrite R, bind_fputs. now rewrite !append_assoc.
Qed.

Lemma dump_dns_sect_loop_failure (msg : ns_msg) (sect : ns_sect) (endline : string)
    (errno : Z) (more : nat) (rrs : list ns_rr) :
  forall (txts : list string) (rrnum : nat) (sep : string),
  map (fun i => ns_parserr msg sect (Z.of_nat i)) (seq rrnum (List.length rrs)) =
    map inr rrs ->
  map (fun rr => dump_dns_rr msg rr sect) rrs = map (fun t => Some (t, tt)) txts ->
  ns_parserr msg sect (Z.of_nat (rrnum + List.length rrs)) = inl errno ->
  dump_dns_sect_loop msg sect endline (List.length rrs + S more) (Z.of_nat rrnum) sep =
    Some (section_entries endline sep txts ++ strerror errno, tt).
Proof.
  induction rrs as [|rr rrs IH]; intros [|t txts] rrnum sep Hrec Htxt Hfail;
    try discriminate.
  - cbn [List.length Nat.add dump_dns_sect_loop section_entries].
    rewrite Nat.add_0_r in Hfail. now rewrite Hfail.
  - cbn [List.length seq map] in Hrec, Htxt.
    injection Hrec as Hrr Hrec. injection Htxt as Ht Htxt.
    cbn [List.length Nat.add dump_dns_sect_loop section_entries].
    rewrite Hrr, Ht.
    replace (Z.of_nat rrnum + 1) with (Z.of_nat (S rrnum)) by lia.
    rewrite (IH txts (S rrnum) endline Hrec Htxt)
      by (cbn [List.length] in Hfail; now rewrite Nat.add_succ_comm).
    cbn. rewrite ?append_assoc. reflexivity.
Qed.

(** X11. When [ns_parserr] fails at an index of a section after it has
    yielded the records before it, the section is written as its count, the
    entries of those records, and the description of the error right after
    them; the remaining records of the section are not written. *)
Theorem X11_section_stops_at_failure
    (msg : ns_msg) (sect : ns_sect) (endline : string)
    (rrs : list ns_rr) (txts : list string) (errno : Z) :
  (List.length rrs < Z.to_nat (ns_msg_count msg sect))%nat ->
  map (fun i => ns_parserr msg sect (Z.of_nat i)) (seq 0 (List.length rrs)) =
    map inr rrs ->
  ns_parserr msg sect (Z.of_nat (List.length rrs)) = inl errno ->
  map (fun rr => dump_dns_rr msg rr sect) rrs = map (fun t => Some (t, tt)) txts ->
  dump_dns_sect msg sect endline =
    Some (" " ++ endline ++ fmt_d (ns_msg_count msg sect) ++
          section_entries endline EmptyString txts ++ strerror errno, tt).
Proof.
  intros Hk Hrec Hfail Htxt. unfold dump_dns_sect.
  destruct (ns_msg_count msg sect =? 0) eqn:E0; [lia|].
  replace (Z.to_nat (ns_msg_count msg sect))
    with (List.length rrs + S (Z.to_nat (ns_msg_count msg sect) - S (List.length rrs)))%nat
    by lia.
  pose proof (dump_dns_sect_loop_failure msg sect endline errno
                (Z.to_nat (ns_msg_count msg sect) - S (List.length rrs))
                rrs txts 0 EmptyString Hrec Htxt Hfail) as L.
  cbn [Z.of_nat] in L. rewrite L.
  cbn. rewrite ?append_assoc. reflexivity.
Qed.

(** ** The reading macros *)

Lemma lor_disjoint (hi lo k : Z) :
  0 <= k -> 0 <= lo < 2 ^ k -> Z.lor (hi * 2 ^ k) lo = hi * 2 ^ k + lo.
Proof.
  intros Hk Hlo.
  cut (Z.land (hi * 2 ^ k) lo = 0).
  { intros H0. rewrite <- (Z.lxor_lor _ _ H0). symmetry.
    now apply Z.add_nocarry_lxor. }
  apply Z.bits_inj'. intros n Hn. rewrite Z.land_spec, Z.bits_0.
  destruct (Z.ltb_spec n k) as [Hlt|Hge].
  - now rewrite Z.mul_pow2_bits_low by lia.
  - destruct (Z.eq_dec lo 0) as [->|Hnz].
    + rewrite Z.bits_0. apply andb_false_r.
    + rewrite (Z.bits_above_log2 lo n); [apply andb_false_r | lia |].
      assert (Z.log2 lo < k) by (apply Z.log2_lt_pow2; lia). lia.
Qed.

Lemma be32_bytes (a b c d : Z) :
  0 <= a < 256 -> 0 <= b < 256 -> 0 <= c < 256 -> 0 <= d < 256 ->
  Z.lor (Z.lor (Z.lor (Z.shiftl a 24) (Z.shiftl b 16)) (Z.shiftl c 8)) d =
  a * 16777216 + b * 65536 + c * 256 + d.
Proof.
  intros Ha Hb Hc Hd. rewrite !Z.shiftl_mul_pow2 by lia.
  rewrite (lor_disjoint a (b * 2 ^ 16) 24) by lia.
  replace (a * 2 ^ 24 + b * 2 ^ 16) with ((a * 256 + b) * 2 ^ 16) by lia.
  rewrite (lor_disjoint (a * 256 + b) (c * 2 ^ 8) 16) by lia.
  replace ((a * 256 + b) * 2 ^ 16 + c * 2 ^ 8)
    with ((a * 65536 + b * 256 + c) * 2 ^ 8) by lia.
  rewrite (lor_disjoint (a * 65536 + b * 256 + c) d 8) by lia.
  lia.
Qed.

(** X12. [MY_GET16] is defined exactly when the two bytes at the cursor
    are inside the buffer; it then yields [256 * b0 + b1], a value below
    65536, and the cursor two bytes on, and writes nothing. *)
Theorem X12_MY_GET16 (m : list byte) (cp : Z) :
  MY_GET16 m cp =
    (if (0 <=? cp) && (cp + 2 <=? Z.of_nat (List.length m))
     then Some (EmptyString, (256 * byte_at m cp + byte_at m (cp + 1), cp + 2))
     else None) /\
  0 <= 256 * byte_at m cp + byte_at m (cp + 1) < 65536.
Proof.
  pose proof (byte_at_range m cp) as H0. pose proof (byte_at_range m (cp + 1)) as H1.
  split; [|lia].
  destruct ((0 <=? cp) && (cp + 2 <=? Z.of_nat (List.length m))) eqn:E.
  - apply andb_true_iff in E. destruct E as [Ea Eb].
    rewrite MY_GET16_in by lia. unfold be16_at.
    rewrite be16_bytes by assumption. do 3 f_equal. lia.
  - destruct (MY_GET16 m cp) as [[o [v q]]|] eqn:G; [|reflexivity].
    apply MY_GET16_some in G. apply andb_false_iff in E. lia.
Qed.

(** X13. [MY_GET32] on four bytes inside the buffer yields
    [b0 * 2^24 + b1 * 2^16 + b2 * 2^8 + b3], a value below 2^32, and the
    cursor four bytes on; it has no defined result when the cursor is
    before the buffer or its first byte is beyond it. *)
Theorem X13_MY_GET32 (m : list byte) (cp : Z) :
  (0 <= cp -> cp + 4 <= Z.of_nat (List.length m) ->
   MY_GET32 m cp =
     Some (EmptyString,
           (byte_at m cp * 16777216 + byte_at m (cp + 1) * 65536 +
            byte_at m (cp + 2) * 256 + byte_at m (cp + 3), cp + 4))) /\
  0 <= be32_at m cp < 4294967296 /\
  (cp < 0 \/ Z.of_nat (List.length m) <= cp -> MY_GET32 m cp = None).
Proof.
  pose proof (byte_at_range m cp) as H0. pose proof (byte_at_range m (cp + 1)) as H1.
  pose proof (byte_at_range m (cp + 2)) as H2.
  pose proof (byte_at_range m (cp + 3)) as H3.
  assert (E : be32_at m cp =
              byte_at m cp * 16777216 + byte_at m (cp + 1) * 65536 +
              byte_at m (cp + 2) * 256 + byte_at m (cp + 3))
    by (unfold be32_at; now apply be32_bytes).
  split; [|split].
  - intros Ha Hb. rewrite MY_GET32_in by lia. now rewrite E.
  - rewrite E. lia.
  - intros Hout. unfold MY_GET32.
    destruct (peek m cp) as [v|] eqn:P; [|reflexivity].
    apply peek_some in P. lia.
Qed.

(** X14. [p_opcode] gives distinct names to distinct 4-bit opcodes: the
    eight mnemonics of its table and [OPCODE<n>] for the other values. *)
Theorem X14_p_opcode_injective (a b : Z) :
  0 <= a < 16 -> 0 <= b < 16 -> p_opcode a = p_opcode b -> a = b.
Proof.
  intros Ha Hb.
  assert (Ea : In a (map Z.of_nat (seq 0 16)))
    by (apply in_map_iff; exists (Z.to_nat a); split; [lia | apply in_seq; lia]).
  assert (Eb : In b (map Z.of_nat (seq 0 16)))
    by (apply in_map_iff; exists (Z.to_nat b); split; [lia | apply in_seq; lia]).
  cbn in Ea, Eb.
  repeat (destruct Ea as [<-|Ea]; [|]); try contradiction;
    repeat (destruct Eb as [<-|Eb]; [|]); try contradiction;
    intros E; first [reflexivity | vm_compute in E; discriminate E].
Qed.

(** ** No read outside the message *)

Lemma dump_rdata_defined (msg : ns_msg) (rr : ns_rr) :
  uncompress_sound ->
  rr_in_msg msg rr ->
  exists out c, dump_rdata msg rr = Some (out, c).
Proof.
  intros Hu [Hrd Hin]. unfold dump_rdata.
  destruct (ns_rr_type rr =? ns_t_soa).
  { unfold dump_soa.
    destruct (ns_name_uncompress (_msg msg) (ns_rr_rdata rr) NS_MAXDNAME)
      as [[n1 mname]|] eqn:E1; [|unfold ret; eauto].
    destruct (ns_name_uncompress (_msg msg) (ns_rr_rdata rr + n1) NS_MAXDNAME)
      as [[n2 rname]|] eqn:E2; [|cbn; eauto].
    apply Hu in E1. apply Hu in E2.
    destruct (ns_msg_end msg - (ns_rr_rdata rr + n1 + n2) <? 5 * NS_INT32SZ) eqn:E20;
      [cbn; eauto|].
    unfold ns_msg_end, NS_INT32SZ in E20.
    rewrite (MY_GET32_in _ (ns_rr_rdata rr + n1 + n2)) by lia.
    rewrite bind_some, fputs_nil.
    rewrite (MY_GET32_in _ (ns_rr_rdata rr + n1 + n2 + 4)) by lia.
    rewrite bind_some, fputs_nil.
    rewrite (MY_GET32_in _ (ns_rr_rdata rr + n1 + n2 + 4 + 4)) by lia.
    rewrite bind_some, fputs_nil.
    rewrite (MY_GET32_in _ (ns_rr_rdata rr + n1 + n2 + 4 + 4 + 4)) by lia.
    rewrite bind_some, fputs_nil.
    rewrite (MY_GET32_in _ (ns_rr_rdata rr + n1 + n2 + 4 + 4 + 4 + 4)) by lia.
    cbn. eauto. }
  destruct (ns_rr_type rr =? ns_t_a).
  { destruct (ns_msg_end msg - ns_rr_rdata rr <? 4) eqn:E4; [unfold ret; eauto|].
    unfold ns_msg_end in E4. rewrite read_bytes_in by lia. cbn. eauto. }
  destruct (ns_rr_type rr =? ns_t_aaaa).
  { destruct (ns_msg_end msg - ns_rr_rdata rr <? 16) eqn:E16; [unfold ret; eauto|].
    unfold ns_msg_end in E16. rewrite read_bytes_in by lia. cbn. eauto. }
  destruct (ns_rr_type rr =? ns_t_mx).
  { destruct (ns_msg_end msg - ns_rr_rdata rr <? 2) eqn:E2; [unfold ret; eauto|].
    unfold ns_msg_end in E2. rewrite MY_GET16_in by lia.
    rewrite bind_some, fputs_nil, dump_name_eq. cbn. eauto. }
  destruct ((ns_rr_type rr =? ns_t_ns) || (ns_rr_type rr =? ns_t_ptr) ||
            (ns_rr_type rr =? ns_t_cname)).
  { rewrite dump_name_eq. eauto. }
  destruct (ns_rr_type rr =? ns_t_opt); [|unfold ret; eauto].
  unfold dump_edns0.
  destruct (edns0_walk_defined (_msg msg) _ (ns_rr_rdata rr)
              (u_short (ns_rr_rdlen rr)) (Nat.le_refl _) Hrd
              (u_short_range _) Hin) as (out & c & Hw).
  rewrite Hw. cbn. eauto.
Qed.

Lemma dump_dns_rr_defined (msg : ns_msg) (rr : ns_rr) (sect : ns_sect) :
  uncompress_sound ->
  rr_in_msg msg rr ->
  exists rest, dump_dns_rr msg rr sect = Some (rr_question rr ++ rest, tt).
Proof.
  intros Hu Hin.
  destruct (dump_rdata_defined msg rr Hu Hin) as (out & c & D).
  destruct sect.
  - exists EmptyString. unfold dump_dns_rr. reflexivity.
  - eexists. rewrite (dump_dns_rr_rdata msg rr ns_s_an out c ltac:(discriminate) D).
    unfold rr_head. rewrite !append_assoc. reflexivity.
  - eexists. rewrite (dump_dns_rr_rdata msg rr ns_s_ns out c ltac:(discriminate) D).
    unfold rr_head. rewrite !append_assoc. reflexivity.
  - eexists. rewrite (dump_dns_rr_rdata msg rr ns_s_ar out c ltac:(discriminate) D).
    unfold rr_head. rewrite !append_assoc. reflexivity.
Qed.

(** X15. Whatever its type and its bytes, a record whose rdata lies inside
    the message is written without a read outside the message buffer, when a
    name the library decompresses takes no negative number of bytes; what is
    written starts with the owner name and a comma. *)
Theorem X15_record_reads_inside_message (msg : ns_msg) (rr : ns_rr) (sect : ns_sect) :
  uncompress_sound ->
  rr_in_msg msg rr ->
  exists rest,
    dump_dns_rr msg rr sect = Some (ns_rr_name rr ++ "," ++ rest, tt).
Proof.
  intros Hu Hin. destruct (dump_dns_rr_defined msg rr sect Hu Hin) as [rest E].
  rewrite E. unfold rr_question. cbv zeta.
  destruct args_right_to_left; eexists; rewrite !append_assoc; reflexivity.
Qed.

Lemma dump_dns_sect_loop_defined (msg : ns_msg) (sect : ns_sect) (endline : string) :
  uncompress_sound -> parserr_sound msg ->
  forall (todo : nat) (rrnum : Z) (sep : string),
  exists out, dump_dns_sect_loop msg sect endline todo rrnum sep = Some (out, tt).
Proof.
  intros Hu Hp. induction todo as [|todo IH]; intros rrnum sep.
  - unfold dump_dns_sect_loop, ret. eauto.
  - cbn [dump_dns_sect_loop].
    destruct (ns_parserr msg sect rrnum) as [errno|rr] eqn:E; [unfold fputs; eauto|].
    destruct (dump_dns_rr_defined msg rr sect Hu (Hp _ _ _ E)) as [rest ->].
    destruct (IH (rrnum + 1) endline) as [out ->].
    cbn. eauto.
Qed.

Lemma dump_dns_sect_defined (msg : ns_msg) (sect : ns_sect) (endline : string) :
  uncompress_sound -> parserr_sound msg ->
  exists out, dump_dns_sect msg sect endline = Some (out, tt).
Proof.
  intros Hu Hp. unfold dump_dns_sect.
  destruct (ns_msg_count msg sect =? 0); [unfold fputs; eauto|].
  destruct (dump_dns_sect_loop_defined msg sect endline Hu Hp
              (Z.to_nat (ns_msg_count msg sect)) 0 EmptyString) as [out ->].
  cbn. eauto.
Qed.

(** X16. On every buffer [dump_dns] comes to an end without a read outside
    the buffer, and what it writes starts with [ <endline>dns ], provided the
    library keeps its side: a decompressed name takes no negative number of
    bytes, and the rdata of every record [ns_parserr] yields lies inside the
    message. *)
Theorem X16_dump_dns_reads_inside_buffer (payload : list byte) (endline : string) :
  uncompress_sound ->
  (forall msg, ns_initparse payload = inr msg -> parserr_sound msg) ->
  exists rest,
    dump_dns payload endline = Some (" " ++ endline ++ "dns " ++ rest, tt).
Proof.
  intros Hu Hp. unfold dump_dns.
  destruct (ns_initparse payload) as [errno|msg] eqn:E.
  - exists (strerror errno). cbn. now rewrite !append_assoc.
  - specialize (Hp msg eq_refl).
    destruct (dump_dns_header_some msg) as [h ->].
    destruct (dump_dns_sect_defined msg ns_s_qd endline Hu Hp) as [t1 ->].
    destruct (dump_dns_sect_defined msg ns_s_an endline Hu Hp) as [t2 ->].
    destruct (dump_dns_sect_defined msg ns_s_ns endline Hu Hp) as [t3 ->].
    destruct (dump_dns_sect_defined msg ns_s_ar endline Hu Hp) as [t4 ->].
    exists (h ++ t1 ++ t2 ++ t3 ++ t4).
    cbn. rewrite ?append_assoc, ?append_nil_r. reflexivity.
Qed.

(** ** The question name, again *)

(** X17. When [get_query_domain] returns a name, the buffer parsed, the
    name is the owner name of the first question record and not of a later
    one, it is at most 255 characters long, and nothing was written to
    [trace] or to [stdout]. *)
Theorem X17_query_domain_is_first_question
    (payload : list byte) (out tr host : string) :
  get_query_domain payload = Some (out, (tr, Some host)) ->
  exists msg rr,
    ns_initparse payload = inr msg /\
    0 < ns_msg_count msg ns_s_qd /\
    ns_parserr msg ns_s_qd 0 = inr rr /\
    host = ns_rr_name rr /\
    (String.length host <= 255)%nat /\
    out = EmptyString /\ tr = EmptyString.
Proof.
  unfold get_query_domain, hostname_from_question.
  destruct (ns_initparse payload) as [errno|msg]; [discriminate|].
  destruct (ns_msg_count msg ns_s_qd =? 0) eqn:E0; [discriminate|].
  destruct (0 <? ns_msg_count msg ns_s_qd) eqn:E1; [|discriminate].
  destruct (ns_parserr msg ns_s_qd 0) as [errno|rr] eqn:Er; [discriminate|].
  destruct (Z.of_nat (String.length (ns_rr_name rr)) + 1 >? sizeof_hostname) eqn:E2;
    [discriminate|].
  cbn. intros H. inversion H. subst.
  exists msg, rr. unfold sizeof_hostname in E2.
  repeat split; try reflexivity; try assumption; lia.
Qed.

(** X18. [get_query_domain] returns [NULL] in exactly three cases: the
    parse fails, and the error description goes to [trace] and a newline to
    [stdout]; the header counts no question, and nothing is written; or
    [ns_parserr] fails on the first question, and [ns_parserr] and a newline
    go to [stdout]. *)
Theorem X18_query_domain_null (payload : list byte) (out tr : string) :
  get_query_domain payload = Some (out, (tr, None)) <->
  (exists errno,
     ns_initparse payload = inl errno /\ out = nl /\ tr = strerror errno) \/
  (exists msg,
     ns_initparse payload = inr msg /\ tr = EmptyString /\
     (ns_msg_count msg ns_s_qd <= 0 /\ out = EmptyString \/
      0 < ns_msg_count msg ns_s_qd /\ out = "ns_parserr" ++ nl /\
      exists errno, ns_parserr msg ns_s_qd 0 = inl errno)).
Proof.
  unfold get_query_domain, hostname_from_question.
  destruct (ns_initparse payload) as [e|msg].
  - split.
    + cbn. intros H. inversion H. left. now exists e.
    + intros [(e' & E & -> & ->)|(msg & E & _)]; [|discriminate].
      now inversion E.
  - split.
    + intros H. right. exists msg.
      destruct (ns_msg_count msg ns_s_qd =? 0) eqn:E0.
      { cbn in H. inversion H. repeat split; try reflexivity. left. split; [lia|reflexivity]. }
      destruct (0 <? ns_msg_count msg ns_s_qd) eqn:E1.
      * destruct (ns_parserr msg ns_s_qd 0) as [e|rr].
        { cbn in H. inversion H. repeat split; try reflexivity.
          right. repeat split; [lia | now exists e]. }
        destruct (Z.of_nat (String.length (ns_rr_name rr)) + 1 >? sizeof_hostname);
          cbn in H; discriminate.
      * cbn in H. inversion H. repeat split; try reflexivity.
        left. split; [lia|reflexivity].
    + intros [(e & E & _)|(msg' & E & -> & Hc)]; [discriminate|].
      inversion E. subst msg'.
      destruct Hc as [[Hz ->]|(Hp & -> & e & Er)].
      * destruct (ns_msg_count msg ns_s_qd =? 0) eqn:E0; [reflexivity|].
        destruct (0 <? ns_msg_count msg ns_s_qd) eqn:E1; [lia | reflexivity].
      * destruct (ns_msg_count msg ns_s_qd =? 0) eqn:E0; [lia|].
        destruct (0 <? ns_msg_count msg ns_s_qd) eqn:E1; [|lia].
        now rewrite Er.
Qed.

End Coverage.

(** * The wire resolver keeps the library's side *)

Lemma Wire_unpack_nonneg (m : list byte) (src : Z) (fuel : nat) :
  forall srcp len checked dstp n labels,
  Wire.ns_name_unpack fuel m src srcp len checked dstp = Some (n, labels) ->
  0 <= len \/ src <= srcp ->
  0 <= n.
Proof.
  induction fuel as [|fuel IH]; intros srcp len checked dstp n labels H Hinv;
    [discriminate|].
  cbn [Wire.ns_name_unpack] in H.
  destruct (peek m srcp) as [b|] eqn:P; [|discriminate].
  apply peek_some in P. destruct P as [-> _].
  pose proof (byte_at_range m srcp) as Hb.
  destruct (byte_at m srcp =? 0).
  { inversion H. destruct (len <? 0) eqn:E; lia. }
  destruct (Z.land (byte_at m srcp) Wire.NS_CMPRSFLGS =? 0).
  { destruct ((dstp + byte_at m srcp + 1 >=? Wire.NS_MAXCDNAME) ||
              (srcp + 1 + byte_at m srcp >=? Wire.eom m)); [discriminate|].
    destruct (read_bytes m (srcp + 1) (Z.to_nat (byte_at m srcp))) as [[o label]|];
      [|discriminate].
    destruct (Wire.ns_name_unpack fuel m src (srcp + 1 + byte_at m srcp) len
                (checked + byte_at m srcp + 1) (dstp + byte_at m srcp + 1))
      as [[l labels']|] eqn:E; [|discriminate].
    inversion H. subst. apply (IH _ _ _ _ _ _ E). lia. }
  destruct (Z.land (byte_at m srcp) Wire.NS_CMPRSFLGS =? Wire.NS_CMPRSFLGS);
    [|discriminate].
  destruct (peek m (srcp + 1)) as [lo|]; [|discriminate].
  match type of H with
  | (if ?c then _ else _) = _ => destruct c; [discriminate|]
  end.
  match type of H with
  | (if ?c then _ else _) = _ => destruct c; [discriminate|]
  end.
  apply (IH _ _ _ _ _ _ H). left. destruct (len <? 0) eqn:E; lia.
Qed.

Lemma Wire_uncompress_sound : @uncompress_sound Wire.resolver.
Proof.
  intros m src dstsiz n dst H. cbn in H. unfold Wire.ns_name_uncompress in H.
  destruct ((src <? 0) || (src >=? Wire.eom m)); [discriminate|].
  destruct (Wire.ns_name_unpack (128 + List.length m) m src src (-1) 0 0)
    as [[n' labels]|] eqn:E; [|discriminate].
  match type of H with
  | (if ?c then _ else _) = _ => destruct c; [discriminate|]
  end.
  inversion H. subst. apply (Wire_unpack_nonneg _ _ _ _ _ _ _ _ _ E). lia.
Qed.

Lemma Wire_get16_some (m : list byte) (p v : Z) :
  Wire.get16 m p = Some v -> 0 <= p /\ 0 <= v < 65536.
Proof.
  unfold Wire.get16. intros H.
  destruct (peek m p) as [a|] eqn:Pa; [|discriminate].
  destruct (peek m (p + 1)) as [b|] eqn:Pb; [|discriminate].
  apply peek_some in Pa. apply peek_some in Pb.
  destruct Pa as [-> Ha]. destruct Pb as [-> Hb]. inversion H.
  split; [lia|]. apply (be16_at_range m p).
Qed.

Lemma Wire_parserr_sound (h : ns_msg) : @parserr_sound Wire.resolver h.
Proof.
  intros sect rrnum rr H. cbn in H. unfold Wire.ns_parserr in H.
  match type of H with
  | (if ?c then _ else _) = _ => destruct c; [discriminate|]
  end.
  destruct (Wire.ns_skiprr (_msg h) (_sections h sect) sect (Z.to_nat rrnum))
    as [ptr|]; [|discriminate].
  destruct (Wire.dn_expand (_msg h) ptr NS_MAXDNAME) as [[b nm]|]; [|discriminate].
  destruct (Wire.get16 (_msg h) (ptr + b)) as [ty|] eqn:Ety; [|discriminate].
  destruct (Wire.get16 (_msg h) (ptr + b + 2)) as [cl|]; [|discriminate].
  apply Wire_get16_some in Ety. destruct Ety as [Hptr _].
  unfold rr_in_msg, ns_rr_rdata, ns_rr_rdlen, ns_msg_end.
  destruct sect.
  - inversion H. cbn. split; [lia|]. change (u_short 0) with 0. lia.
  - destruct (Wire.get32 (_msg h) (ptr + b + 4)) as [tl|]; [|discriminate].
    destruct (Wire.get16 (_msg h) (ptr + b + 8)) as [rdl|] eqn:Erdl; [|discriminate].
    apply Wire_get16_some in Erdl. destruct Erdl as [_ Hrdl].
    destruct (ptr + b + 10 + rdl >? Wire.eom (_msg h)) eqn:Eend; [discriminate|].
    inversion H. cbn. rewrite u_short_small by assumption.
    unfold Wire.eom in Eend. lia.
  - destruct (Wire.get32 (_msg h) (ptr + b + 4)) as [tl|]; [|discriminate].
    destruct (Wire.get16 (_msg h) (ptr + b + 8)) as [rdl|] eqn:Erdl; [|discriminate].
    apply Wire_get16_some in Erdl. destruct Erdl as [_ Hrdl].
    destruct (ptr + b + 10 + rdl >? Wire.eom (_msg h)) eqn:Eend; [discriminate|].
    inversion H. cbn. rewrite u_short_small by assumption.
    unfold Wire.eom in Eend. lia.
  - destruct (Wire.get32 (_msg h) (ptr + b + 4)) as [tl|]; [|discriminate].
    destruct (Wire.get16 (_msg h) (ptr + b + 8)) as [rdl|] eqn:Erdl; [|discriminate].
    apply Wire_get16_some in Erdl. destruct Erdl as [_ Hrdl].
    destruct (ptr + b + 10 + rdl >? Wire.eom (_msg h)) eqn:Eend; [discriminate|].
    inversion H. cbn. rewrite u_short_small by assumption.
    unfold Wire.eom in Eend. lia.
Qed.

(** * The dumper on packets *)

#[local] Existing Instance Wire.resolver.

(** C1, as stated, fails on [pkt_opt_overrun]: the second option of its OPT
    record declares 9 bytes where 2 are left, and the record is written with
    the entries of both options before the fallback, not as the edns0 header
    and [,[12]] alone. *)
Lemma C1_counterexample :
  Wire.ns_initparse pkt_opt_overrun = inr msg_opt_overrun /\
  Wire.ns_parserr msg_opt_overrun ns_s_ar 0 = inr rr_opt_overrun /\
  ns_rr_type rr_opt_overrun = ns_t_opt /\
  edns0_reach (_msg msg_opt_overrun) (ns_rr_rdata rr_opt_overrun)
    (u_short (ns_rr_rdlen rr_opt_overrun)) "edns0[code=3,codelen=2] " 29 6 /\
  be16_at (_msg msg_opt_overrun) (29 + 2) = 9 /\
  dump_dns_rr msg_opt_overrun rr_opt_overrun ns_s_ar =
    Some (".,4096,4096,0,edns0[len=12,UDP=4096,ver=0,rcode=0,DO=0,z=0] " ++
          backslash ++ nl ++ tab ++
          "edns0[code=3,codelen=2] edns0[code=8,codelen=9] ,[12]", tt) /\
  dump_dns_rr msg_opt_overrun rr_opt_overrun ns_s_ar <>
    Some (opt_fallback_rendering rr_opt_overrun, tt) /\
  option_map (fun r => contains (fst r) "edns0[code=")
    (dump_dns_rr msg_opt_overrun rr_opt_overrun ns_s_ar) = Some true.
Proof.
  split; [eval_goal|]. split; [eval_goal|]. split; [eval_goal|].
  split; [apply edns0_reach_one; eval_goal|].
  split; [eval_goal|]. split; [eval_goal|]. split; eval_goal.
Qed.

(** C1 (amended) on [pkt_opt_overrun], at its second option. *)
Lemma C1_witness :
  ns_s_ar <> ns_s_qd /\
  ns_rr_type rr_opt_overrun = ns_t_opt /\
  rr_in_msg msg_opt_overrun rr_opt_overrun /\
  edns0_reach (_msg msg_opt_overrun) (ns_rr_rdata rr_opt_overrun)
    (u_short (ns_rr_rdlen rr_opt_overrun)) "edns0[code=3,codelen=2] " 29 6 /\
  4 <= 6 /\
  6 - 4 < be16_at (_msg msg_opt_overrun) (29 + 2) /\
  edns0_option (_msg msg_opt_overrun) 29 6 = Some ("edns0[code=8,codelen=9] ", Bail) /\
  dump_dns_rr msg_opt_overrun rr_opt_overrun ns_s_ar =
    Some (".,4096,4096,0,edns0[len=12,UDP=4096,ver=0,rcode=0,DO=0,z=0] " ++
          backslash ++ nl ++ tab ++
          "edns0[code=3,codelen=2] edns0[code=8,codelen=9] ,[12]", tt).
Proof.
  assert (H1 : ns_s_ar <> ns_s_qd) by discriminate.
  assert (H2 : ns_rr_type rr_opt_overrun = ns_t_opt) by (vm_compute; reflexivity).
  assert (H3 : rr_in_msg msg_opt_overrun rr_opt_overrun) by (split; eval_goal).
  assert (H4 : edns0_reach (_msg msg_opt_overrun) (ns_rr_rdata rr_opt_overrun)
                 (u_short (ns_rr_rdlen rr_opt_overrun)) "edns0[code=3,codelen=2] " 29 6)
    by (apply edns0_reach_one; eval_goal).
  assert (H5 : 4 <= 6) by lia.
  assert (H6 : 6 - 4 < be16_at (_msg msg_opt_overrun) (29 + 2)) by (vm_compute; reflexivity).
  pose proof (C1_opt_overrun_appends_fallback msg_opt_overrun rr_opt_overrun ns_s_ar
                _ 29 6 H1 H2 H3 H4 H5 H6) as [Ha Hb].
  do 6 (split; [assumption|]).
  split; [rewrite Ha | rewrite Hb]; vm_compute; reflexivity.
Defined.

(** C2 on the OPT record of [pkt_opt_overrun], after its first option. *)
Lemma C2_witness :
  edns0_reach (_msg msg_opt_overrun) (ns_rr_rdata rr_opt_overrun)
    (u_short (ns_rr_rdlen rr_opt_overrun)) "edns0[code=3,codelen=2] " 29 6 /\
  (29 - ns_rr_rdata rr_opt_overrun) + 6 = u_short (ns_rr_rdlen rr_opt_overrun) /\
  0 <= 29 - ns_rr_rdata rr_opt_overrun <= u_short (ns_rr_rdlen rr_opt_overrun).
Proof.
  assert (H : edns0_reach (_msg msg_opt_overrun) (ns_rr_rdata rr_opt_overrun)
                (u_short (ns_rr_rdlen rr_opt_overrun)) "edns0[code=3,codelen=2] " 29 6)
    by (apply edns0_reach_one; eval_goal).
  pose proof (C2_option_walk_stays_in_rdata msg_opt_overrun rr_opt_overrun _ 29 6 H)
    as (Ha & Hb & _).
  split; [exact H|]. split; [exact Ha | exact Hb].
Defined.

(** C3, as stated, fails on [pkt_short_soa]: the rdata of its SOA record is
    two root names and no further byte, and the record is written with five
    numbers read from the record that follows it, not with [,[2]]. *)
Lemma C3_counterexample :
  Wire.ns_initparse pkt_short_soa = inr msg_short_soa /\
  Wire.ns_parserr msg_short_soa ns_s_an 0 = inr rr_short_soa /\
  ns_rr_type rr_short_soa = ns_t_soa /\
  ns_name_uncompress (_msg msg_short_soa) (ns_rr_rdata rr_short_soa) NS_MAXDNAME =
    Some (1, ".") /\
  ns_name_uncompress (_msg msg_short_soa) (ns_rr_rdata rr_short_soa + 1) NS_MAXDNAME =
    Some (1, ".") /\
  ns_rr_rdlen rr_short_soa - (1 + 1) = 0 /\
  dump_dns_rr msg_short_soa rr_short_soa ns_s_an =
    Some ("a,IN,SOA,60,.,.,4096,16777216,1006635272,825373492,892745528", tt) /\
  ends_with "a,IN,SOA,60,.,.,4096,16777216,1006635272,825373492,892745528"
    (rr_fallback rr_short_soa) = false.
Proof.
  split; [eval_goal|]. split; [eval_goal|]. split; [eval_goal|].
  split; [eval_goal|]. split; [eval_goal|]. split; [eval_goal|].
  split; eval_goal.
Qed.

(** C3 (amended) on the SOA record of [pkt_sample]. *)
Lemma C3_witness :
  ns_s_an <> ns_s_qd /\
  ns_rr_type rr_sample_soa = ns_t_soa /\
  ns_name_uncompress (_msg msg_sample) (ns_rr_rdata rr_sample_soa) NS_MAXDNAME =
    Some (5, "ns.example.com") /\
  ns_name_uncompress (_msg msg_sample) (ns_rr_rdata rr_sample_soa + 5) NS_MAXDNAME =
    Some (1, ".") /\
  0 <= ns_rr_rdata rr_sample_soa + 5 + 1 /\
  dump_dns_rr msg_sample rr_sample_soa ns_s_an =
    Some ("example.com,IN,SOA,256,ns.example.com,.,1,2,3,4,5", tt).
Proof.
  assert (H1 : ns_s_an <> ns_s_qd) by discriminate.
  assert (H2 : ns_rr_type rr_sample_soa = ns_t_soa) by (vm_compute; reflexivity).
  assert (H3 : ns_name_uncompress (_msg msg_sample) (ns_rr_rdata rr_sample_soa)
                 NS_MAXDNAME = Some (5, "ns.example.com")) by (vm_compute; reflexivity).
  assert (H4 : ns_name_uncompress (_msg msg_sample) (ns_rr_rdata rr_sample_soa + 5)
                 NS_MAXDNAME = Some (1, ".")) by (vm_compute; reflexivity).
  assert (H5 : 0 <= ns_rr_rdata rr_sample_soa + 5 + 1) by eval_goal.
  pose proof (C3_soa_record msg_sample rr_sample_soa ns_s_an 5 1 _ _ H1 H2 H3 H4 H5)
    as [Hc _].
  do 5 (split; [assumption|]).
  rewrite Hc. vm_compute. reflexivity.
Defined.

(** C4 on the client-subnet option of [pkt_sample]: family 1, source mask
    24, scope mask 0, address 192.0.2.0. *)
Lemma C4_witness :
  0 <= 98 /\
  4 <= 12 < 65536 /\
  98 + 12 <= Z.of_nat (List.length pkt_sample) /\
  be16_at pkt_sample 98 = 8 /\
  4 <= be16_at pkt_sample (98 + 2) <= 12 - 4 /\
  be16_at pkt_sample 102 = 1 /\
  byte_at pkt_sample 104 = 24 /\
  byte_at pkt_sample 105 = 0 /\
  bytes_at pkt_sample 106 4 = [192; 0; 2; 0] /\
  client_subnet_rendering pkt_sample (98 + 4) (be16_at pkt_sample (98 + 2)) =
    "edns0_client_subnet=192.0.2.0/24 (scope 0)" /\
  edns0_option pkt_sample 98 12 =
    Some ("edns0[code=8,codelen=8] edns0_client_subnet=192.0.2.0/24 (scope 0)",
          Next 110 0).
Proof.
  assert (H1 : 0 <= 98) by lia.
  assert (H2 : 4 <= 12 < 65536) by lia.
  assert (H3 : 98 + 12 <= Z.of_nat (List.length pkt_sample)) by eval_goal.
  assert (H4 : be16_at pkt_sample 98 = 8) by (vm_compute; reflexivity).
  assert (H5 : 4 <= be16_at pkt_sample (98 + 2) <= 12 - 4) by (split; eval_goal).
  pose proof (C4_client_subnet_option pkt_sample 98 12 H1 H2 H3 H4 H5) as Hc.
  do 5 (split; [assumption|]).
  split; [eval_goal|]. split; [eval_goal|]. split; [eval_goal|]. split; [eval_goal|].
  split; [eval_goal|].
  rewrite Hc. vm_compute. reflexivity.
Defined.

(** C5 on [pkt_truncated]. *)
Lemma C5_witness :
  ns_initparse pkt_truncated = inl Wire.EMSGSIZE /\
  dump_dns pkt_truncated nl = Some (" " ++ nl ++ "dns Message too long", tt).
Proof.
  assert (H : ns_initparse pkt_truncated = inl Wire.EMSGSIZE) by (vm_compute; reflexivity).
  split; [exact H|].
  rewrite (C5_parse_failure pkt_truncated nl Wire.EMSGSIZE H). vm_compute. reflexivity.
Defined.

(** C6 on [pkt_sample], whose records all parse, and on [pkt_bad_second],
    whose question section stops at its second record and is followed by the
    three other sections all the same; [;] is the separator. *)
Lemma C6_witness :
  ns_initparse pkt_sample = inr msg_sample /\
  (forall s i rr, ns_parserr msg_sample s i = inr rr ->
                  exists t, dump_dns_rr msg_sample rr s = Some (t, tt)) /\
  map (fun s => ns_msg_count msg_sample s) [ns_s_qd; ns_s_an; ns_s_ns; ns_s_ar] =
    [1; 2; 0; 1] /\
  dump_dns pkt_sample ";" =
    Some (" ;dns QUERY,NOERROR,4660,qr|rd|ra" ++
          " ;1 www.example.com,IN,A" ++
          " ;2 www.example.com,IN,A,60,192.0.2.1" ++
          " ;example.com,IN,SOA,256,ns.example.com,.,1,2,3,4,5" ++
          " 0" ++
          " ;1 .,4096,4096,32768," ++
          "edns0[len=12,UDP=4096,ver=0,rcode=0,DO=1,z=0] " ++ backslash ++ nl ++ tab ++
          "edns0[code=8,codelen=8] edns0_client_subnet=192.0.2.0/24 (scope 0)", tt) /\
  ns_initparse pkt_bad_second = inr msg_bad_second /\
  (forall s i rr, ns_parserr msg_bad_second s i = inr rr ->
                  exists t, dump_dns_rr msg_bad_second rr s = Some (t, tt)) /\
  map (fun s => ns_msg_count msg_bad_second s) [ns_s_qd; ns_s_an; ns_s_ns; ns_s_ar] =
    [2; 0; 0; 0] /\
  dump_dns pkt_bad_second ";" =
    Some (" ;dns QUERY,NOERROR,7,rd" ++ " ;2 a,IN,AMessage too long" ++
          " 0" ++ " 0" ++ " 0", tt).
Proof.
  assert (W : forall msg s i rr, ns_parserr msg s i = inr rr ->
                exists t, dump_dns_rr msg rr s = Some (t, tt)).
  { intros msg s i rr H.
    destruct (dump_dns_rr_defined msg rr s Wire_uncompress_sound
                (Wire_parserr_sound msg s i rr H)) as [rest E].
    eexists. exact E. }
  assert (H1 : ns_initparse pkt_sample = inr msg_sample) by (vm_compute; reflexivity).
  assert (H2 : ns_initparse pkt_bad_second = inr msg_bad_second)
    by (vm_compute; reflexivity).
  split; [exact H1|]. split; [exact (W msg_sample)|]. split; [eval_goal|].
  split.
  { destruct (C6_sections_in_order pkt_sample msg_sample ";" H1 (W msg_sample))
      as (h & sec & Hh & Hsec & Hd & _).
    rewrite Hd. vm_compute in Hh. injection Hh as <-.
    pose proof (Hsec ns_s_qd) as Hq. vm_compute in Hq. injection Hq as Hq.
    pose proof (Hsec ns_s_an) as Ha. vm_compute in Ha. injection Ha as Ha.
    pose proof (Hsec ns_s_ns) as Hn. vm_compute in Hn. injection Hn as Hn.
    pose proof (Hsec ns_s_ar) as Hr. vm_compute in Hr. injection Hr as Hr.
    rewrite <- Hq, <- Ha, <- Hn, <- Hr. vm_compute. reflexivity. }
  split; [exact H2|]. split; [exact (W msg_bad_second)|]. split; [eval_goal|].
  destruct (C6_sections_in_order pkt_bad_second msg_bad_second ";" H2 (W msg_bad_second))
    as (h & sec & Hh & Hsec & Hd & _).
  rewrite Hd. vm_compute in Hh. injection Hh as <-.
  pose proof (Hsec ns_s_qd) as Hq. vm_compute in Hq. injection Hq as Hq.
  pose proof (Hsec ns_s_an) as Ha. vm_compute in Ha. injection Ha as Ha.
  pose proof (Hsec ns_s_ns) as Hn. vm_compute in Hn. injection Hn as Hn.
  pose proof (Hsec ns_s_ar) as Hr. vm_compute in Hr. injection Hr as Hr.
  rewrite <- Hq, <- Ha, <- Hn, <- Hr. vm_compute. reflexivity.
Defined.

(** C7, as stated, fails on [pkt_short_a]: the rdata of its A record is
    empty, and the record is written with an address read from the record
    that follows it, not with [,[0]]. *)
Lemma C7_counterexample :
  Wire.ns_initparse pkt_short_a = inr msg_short_a /\
  Wire.ns_parserr msg_short_a ns_s_an 0 = inr rr_short_a /\
  ns_rr_type rr_short_a = ns_t_a /\
  ns_rr_rdlen rr_short_a = 0 /\
  dump_dns_rr msg_short_a rr_short_a ns_s_an = Some ("a,IN,A,60,1.98.0.0", tt) /\
  ends_with "a,IN,A,60,1.98.0.0" (rr_fallback rr_short_a) = false.
Proof.
  split; [eval_goal|]. split; [eval_goal|]. split; [eval_goal|].
  split; [eval_goal|]. split; eval_goal.
Qed.

(** C7 (amended) on the A record of [pkt_sample], rdata 192.0.2.1. *)
Lemma C7_witness :
  ns_s_an <> ns_s_qd /\
  ns_rr_type rr_sample_a = ns_t_a /\
  0 <= ns_rr_rdata rr_sample_a /\
  bytes_at (_msg msg_sample) (ns_rr_rdata rr_sample_a) 4 = [192; 0; 2; 1] /\
  dump_dns_rr msg_sample rr_sample_a ns_s_an =
    Some ("www.example.com,IN,A,60,192.0.2.1", tt).
Proof.
  assert (H1 : ns_s_an <> ns_s_qd) by discriminate.
  assert (H2 : ns_rr_type rr_sample_a = ns_t_a) by (vm_compute; reflexivity).
  assert (H3 : 0 <= ns_rr_rdata rr_sample_a) by eval_goal.
  pose proof (C7_a_record msg_sample rr_sample_a ns_s_an H1 H2 H3) as [Hc _].
  do 3 (split; [assumption|]).
  split; [eval_goal|].
  rewrite Hc. vm_compute. reflexivity.
Defined.

(** C8, at a failing input.  The question of [pkt_unnamed] has class 2 and
    type 65280; the library prints both numbers into its one static buffer,
    and the [fprintf] of the head, which runs after both calls, writes the
    number of the class in the place of the type as well: [a,2,2], where the
    claim has [a,2,65280]. *)
Theorem C8_unnamed_class_and_type_alias :
  ns_initparse pkt_unnamed = inr msg_unnamed /\
  ns_parserr msg_unnamed ns_s_qd 0 = inr rr_unnamed_question /\
  ns_rr_name rr_unnamed_question = "a" /\
  p_class (ns_rr_class rr_unnamed_question) = Static Wire.unname "2" /\
  p_type (ns_rr_type rr_unnamed_question) = Static Wire.unname "65280" /\
  dump_dns_rr msg_unnamed rr_unnamed_question ns_s_qd = Some ("a,2,2", tt) /\
  dump_dns_rr msg_unnamed rr_unnamed_question ns_s_qd <> Some ("a,2,65280", tt).
Proof.
  split; [eval_goal|]. split; [eval_goal|]. split; [eval_goal|].
  split; [eval_goal|]. split; [eval_goal|]. split; eval_goal.
Qed.

(** C9, at a failing input.  The question name of [pkt_long_name] takes 505
    characters as text; [hostname_from_question] reports it as too long and
    then copies its 506 bytes into the 256 bytes of [hostname]: the call has
    no defined result, where the claim has it return the name. *)
Theorem C9_long_name_overflows :
  ns_initparse pkt_long_name = inr msg_long_name /\
  ns_msg_count msg_long_name ns_s_qd = 1 /\
  ns_parserr msg_long_name ns_s_qd 0 = inr rr_long_name /\
  String.length (ns_rr_name rr_long_name) = 505%nat /\
  get_query_domain pkt_long_name = None.
Proof.
  split; [eval_goal|]. split; [eval_goal|]. split; [eval_goal|].
  split; eval_goal.
Qed.

(** C10 on [pkt_ecs_short], at its client-subnet option of length 2. *)
Lemma C10_witness :
  ns_s_ar <> ns_s_qd /\
  ns_rr_type rr_ecs_short = ns_t_opt /\
  rr_in_msg msg_ecs_short rr_ecs_short /\
  edns0_reach (_msg msg_ecs_short) (ns_rr_rdata rr_ecs_short)
    (u_short (ns_rr_rdlen rr_ecs_short)) "edns0[code=3,codelen=0] " 27 6 /\
  4 <= 6 /\
  be16_at (_msg msg_ecs_short) 27 = 8 /\
  be16_at (_msg msg_ecs_short) (27 + 2) < 4 /\
  be16_at (_msg msg_ecs_short) (27 + 2) <= 6 - 4 /\
  edns0_option (_msg msg_ecs_short) 27 6 = Some ("edns0[code=8,codelen=2] ", Bail) /\
  dump_dns_rr msg_ecs_short rr_ecs_short ns_s_ar =
    Some (".,4096,4096,0,edns0[len=10,UDP=4096,ver=0,rcode=0,DO=0,z=0] " ++
          backslash ++ nl ++ tab ++
          "edns0[code=3,codelen=0] edns0[code=8,codelen=2] ,[10]", tt).
Proof.
  assert (H1 : ns_s_ar <> ns_s_qd) by discriminate.
  assert (H2 : ns_rr_type rr_ecs_short = ns_t_opt) by (vm_compute; reflexivity).
  assert (H3 : rr_in_msg msg_ecs_short rr_ecs_short) by (split; eval_goal).
  assert (H4 : edns0_reach (_msg msg_ecs_short) (ns_rr_rdata rr_ecs_short)
                 (u_short (ns_rr_rdlen rr_ecs_short)) "edns0[code=3,codelen=0] " 27 6)
    by (apply edns0_reach_one; eval_goal).
  assert (H5 : 4 <= 6) by lia.
  assert (H6 : be16_at (_msg msg_ecs_short) 27 = 8) by (vm_compute; reflexivity).
  assert (H7 : be16_at (_msg msg_ecs_short) (27 + 2) < 4) by (vm_compute; reflexivity).
  assert (H8 : be16_at (_msg msg_ecs_short) (27 + 2) <= 6 - 4) by eval_goal.
  pose proof (C10_short_client_subnet_bails msg_ecs_short rr_ecs_short ns_s_ar
                _ 27 6 H1 H2 H3 H4 H5 H6 H7 H8) as [Ha Hb].
  do 8 (split; [assumption|]).
  split; [rewrite Ha | rewrite Hb]; vm_compute; reflexivity.
Defined.

(** ** More of the dumper, on packets *)

(** X1 on the answer of [pkt_unnamed], of type 65280, and on the TXT
    record of [pkt_short_a]. *)
Lemma X1_witness :
  ns_s_an <> ns_s_qd /\
  ~ In (ns_rr_type rr_unnamed_answer) decoded_types /\
  dump_dns_rr msg_unnamed rr_unnamed_answer ns_s_an = Some ("a,2,2,60,[3]", tt) /\
  ~ In (ns_rr_type rr_short_txt) decoded_types /\
  dump_dns_rr msg_short_a rr_short_txt ns_s_an = Some ("b,IN,TXT,60,[2]", tt).
Proof.
  assert (H1 : ns_s_an <> ns_s_qd) by discriminate.
  assert (H2 : ~ In (ns_rr_type rr_unnamed_answer) decoded_types)
    by (intro H; vm_compute in H;
        repeat (destruct H as [H|H]; [discriminate H|]); exact H).
  assert (H3 : ~ In (ns_rr_type rr_short_txt) decoded_types)
    by (intro H; vm_compute in H;
        repeat (destruct H as [H|H]; [discriminate H|]); exact H).
  do 2 (split; [assumption|]).
  split; [rewrite (X1_other_types_fall_back msg_unnamed rr_unnamed_answer ns_s_an H1 H2);
          vm_compute; reflexivity|].
  split; [assumption|].
  rewrite (X1_other_types_fall_back msg_short_a rr_short_txt ns_s_an H1 H3).
  vm_compute. reflexivity.
Defined.

(** X2 on the AAAA record of [pkt_zone], rdata ::1. *)
Lemma X2_witness :
  ns_s_an <> ns_s_qd /\
  ns_rr_type (rr_zone 0) = ns_t_aaaa /\
  0 <= ns_rr_rdata (rr_zone 0) /\
  dump_dns_rr msg_zone (rr_zone 0) ns_s_an = Some ("a,IN,AAAA,5,::1", tt).
Proof.
  assert (H1 : ns_s_an <> ns_s_qd) by discriminate.
  assert (H2 : ns_rr_type (rr_zone 0) = ns_t_aaaa) by (vm_compute; reflexivity).
  assert (H3 : 0 <= ns_rr_rdata (rr_zone 0)) by eval_goal.
  do 3 (split; [assumption|]).
  rewrite (X2_aaaa_record msg_zone (rr_zone 0) ns_s_an H1 H2 H3).
  vm_compute. reflexivity.
Defined.

(** X3 on the two MX records of [pkt_zone]: one with a good exchange name,
    one with a name that does not decompress. *)
Lemma X3_witness :
  ns_s_an <> ns_s_qd /\
  ns_rr_type (rr_zone 1) = ns_t_mx /\
  0 <= ns_rr_rdata (rr_zone 1) /\
  dump_dns_rr msg_zone (rr_zone 1) ns_s_an = Some ("a,IN,MX,5,10,a", tt) /\
  ns_rr_type (rr_zone 3) = ns_t_mx /\
  0 <= ns_rr_rdata (rr_zone 3) /\
  dump_dns_rr msg_zone (rr_zone 3) ns_s_an = Some ("a,IN,MX,5,20,[4]", tt).
Proof.
  assert (H1 : ns_s_an <> ns_s_qd) by discriminate.
  assert (H2 : ns_rr_type (rr_zone 1) = ns_t_mx) by (vm_compute; reflexivity).
  assert (H3 : 0 <= ns_rr_rdata (rr_zone 1)) by eval_goal.
  assert (H4 : ns_rr_type (rr_zone 3) = ns_t_mx) by (vm_compute; reflexivity).
  assert (H5 : 0 <= ns_rr_rdata (rr_zone 3)) by eval_goal.
  do 3 (split; [assumption|]).
  split; [rewrite (X3_mx_record msg_zone (rr_zone 1) ns_s_an H1 H2 H3);
          vm_compute; reflexivity|].
  do 2 (split; [assumption|]).
  rewrite (X3_mx_record msg_zone (rr_zone 3) ns_s_an H1 H4 H5).
  vm_compute. reflexivity.
Defined.

(** X4 on the CNAME record of [pkt_zone] and on its NS record, whose name
    does not decompress. *)
Lemma X4_witness :
  ns_s_an <> ns_s_qd /\
  In (ns_rr_type (rr_zone 2)) [ns_t_ns; ns_t_ptr; ns_t_cname] /\
  dump_dns_rr msg_zone (rr_zone 2) ns_s_an = Some ("a,IN,CNAME,5,a", tt) /\
  In (ns_rr_type (rr_zone 4)) [ns_t_ns; ns_t_ptr; ns_t_cname] /\
  dump_dns_rr msg_zone (rr_zone 4) ns_s_an = Some ("a,IN,NS,5,[2]", tt).
Proof.
  assert (H1 : ns_s_an <> ns_s_qd) by discriminate.
  assert (H2 : In (ns_rr_type (rr_zone 2)) [ns_t_ns; ns_t_ptr; ns_t_cname])
    by (right; right; left; vm_compute; reflexivity).
  assert (H3 : In (ns_rr_type (rr_zone 4)) [ns_t_ns; ns_t_ptr; ns_t_cname])
    by (left; vm_compute; reflexivity).
  do 2 (split; [assumption|]).
  split; [rewrite (X4_name_record msg_zone (rr_zone 2) ns_s_an H1 H2);
          vm_compute; reflexivity|].
  split; [assumption|].
  rewrite (X4_name_record msg_zone (rr_zone 4) ns_s_an H1 H3).
  vm_compute. reflexivity.
Defined.

(** X5 on the two SOA records of [pkt_zone]: the first name fails in one,
    the second in the other. *)
Lemma X5_witness :
  ns_s_an <> ns_s_qd /\
  ns_rr_type (rr_zone 5) = ns_t_soa /\
  ns_name_uncompress (_msg msg_zone) (ns_rr_rdata (rr_zone 5)) NS_MAXDNAME = None /\
  dump_dns_rr msg_zone (rr_zone 5) ns_s_an = Some ("a,IN,SOA,5,[2]", tt) /\
  ns_rr_type (rr_zone 6) = ns_t_soa /\
  ns_name_uncompress (_msg msg_zone) (ns_rr_rdata (rr_zone 6)) NS_MAXDNAME =
    Some (2, "a") /\
  ns_name_uncompress (_msg msg_zone) (ns_rr_rdata (rr_zone 6) + 2) NS_MAXDNAME = None /\
  dump_dns_rr msg_zone (rr_zone 6) ns_s_an = Some ("a,IN,SOA,5,a,[4]", tt).
Proof.
  assert (H1 : ns_s_an <> ns_s_qd) by discriminate.
  assert (H2 : ns_rr_type (rr_zone 5) = ns_t_soa) by (vm_compute; reflexivity).
  assert (H3 : ns_name_uncompress (_msg msg_zone) (ns_rr_rdata (rr_zone 5))
                 NS_MAXDNAME = None) by (vm_compute; reflexivity).
  assert (H4 : ns_rr_type (rr_zone 6) = ns_t_soa) by (vm_compute; reflexivity).
  assert (H5 : ns_name_uncompress (_msg msg_zone) (ns_rr_rdata (rr_zone 6))
                 NS_MAXDNAME = Some (2, "a")) by (vm_compute; reflexivity).
  assert (H6 : ns_name_uncompress (_msg msg_zone) (ns_rr_rdata (rr_zone 6) + 2)
                 NS_MAXDNAME = None) by (vm_compute; reflexivity).
  do 3 (split; [assumption|]).
  split.
  { rewrite (X5_soa_name_failure msg_zone (rr_zone 5) ns_s_an H1 H2)
      by (rewrite H3; exact I).
    vm_compute. reflexivity. }
  do 3 (split; [assumption|]).
  rewrite (X5_soa_name_failure msg_zone (rr_zone 6) ns_s_an H1 H4)
    by (rewrite H5; exact H6).
  vm_compute. reflexivity.
Defined.

(** X6 on the OPT record of [pkt_sample], whose one option fills the
    rdata. *)
Lemma X6_witness :
  ns_s_ar <> ns_s_qd /\
  ns_rr_type rr_sample_opt = ns_t_opt /\
  edns0_reach (_msg msg_sample) (ns_rr_rdata rr_sample_opt)
    (u_short (ns_rr_rdlen rr_sample_opt))
    "edns0[code=8,codelen=8] edns0_client_subnet=192.0.2.0/24 (scope 0)" 110 0 /\
  0 < 4 /\
  dump_dns_rr msg_sample rr_sample_opt ns_s_ar =
    Some (".,4096,4096,32768,edns0[len=12,UDP=4096,ver=0,rcode=0,DO=1,z=0] " ++
          backslash ++ nl ++ tab ++
          "edns0[code=8,codelen=8] edns0_client_subnet=192.0.2.0/24 (scope 0)", tt).
Proof.
  assert (H1 : ns_s_ar <> ns_s_qd) by discriminate.
  assert (H2 : ns_rr_type rr_sample_opt = ns_t_opt) by (vm_compute; reflexivity).
  assert (H3 : edns0_reach (_msg msg_sample) (ns_rr_rdata rr_sample_opt)
                 (u_short (ns_rr_rdlen rr_sample_opt))
                 "edns0[code=8,codelen=8] edns0_client_subnet=192.0.2.0/24 (scope 0)"
                 110 0)
    by (apply edns0_reach_one; eval_goal).
  assert (H4 : 0 < 4) by lia.
  do 4 (split; [assumption|]).
  rewrite (X6_opt_walk_complete msg_sample rr_sample_opt ns_s_ar _ 110 0 H1 H2 H3 H4).
  vm_compute. reflexivity.
Defined.


(** X8 on the OPT record of [pkt_opt_overrun], whose second option is
    malformed. *)
Lemma X8_witness :
  ns_s_ar <> ns_s_qd /\
  ns_rr_type rr_opt_overrun = ns_t_opt /\
  rr_in_msg msg_opt_overrun rr_opt_overrun /\
  exists rest,
    dump_dns_rr msg_opt_overrun rr_opt_overrun ns_s_ar =
      Some (rr_head rr_opt_overrun ++ edns0_header rr_opt_overrun ++ rest, tt).
Proof.
  assert (H1 : ns_s_ar <> ns_s_qd) by discriminate.
  assert (H2 : ns_rr_type rr_opt_overrun = ns_t_opt) by (vm_compute; reflexivity).
  assert (H3 : rr_in_msg msg_opt_overrun rr_opt_overrun) by (split; eval_goal).
  do 3 (split; [assumption|]).
  exact (X8_opt_header_always_written msg_opt_overrun rr_opt_overrun ns_s_ar H1 H2 H3).
Defined.

(** X9 on [rr_opt_flags]: the 0x0123 of the ttl shows as z=35, its low
    byte. *)
Lemma X9_witness :
  0 <= ns_rr_ttl rr_opt_flags < 4294967296 /\
  0 <= ns_rr_class rr_opt_flags < 65536 /\
  0 <= ns_rr_rdlen rr_opt_flags < 65536 /\
  edns0_header rr_opt_flags =
    ",edns0[len=0,UDP=4096,ver=2,rcode=1,DO=1,z=35] " ++ backslash ++ nl ++ tab.
Proof.
  assert (H1 : 0 <= ns_rr_ttl rr_opt_flags < 4294967296) by (split; eval_goal).
  assert (H2 : 0 <= ns_rr_class rr_opt_flags < 65536) by (split; eval_goal).
  assert (H3 : 0 <= ns_rr_rdlen rr_opt_flags < 65536) by (split; eval_goal).
  do 3 (split; [assumption|]).
  rewrite (X9_edns0_header_fields rr_opt_flags H1 H2 H3).
  vm_compute. reflexivity.
Defined.

(** X11 on the question section of [pkt_bad_second]: the second question
    does not parse. *)
Lemma X11_witness :
  (List.length [rr_of msg_bad_second ns_s_qd 0]
   < Z.to_nat (ns_msg_count msg_bad_second ns_s_qd))%nat /\
  map (fun i => ns_parserr msg_bad_second ns_s_qd (Z.of_nat i))
      (seq 0 (List.length [rr_of msg_bad_second ns_s_qd 0])) =
    map inr [rr_of msg_bad_second ns_s_qd 0] /\
  ns_parserr msg_bad_second ns_s_qd
    (Z.of_nat (List.length [rr_of msg_bad_second ns_s_qd 0])) = inl Wire.EMSGSIZE /\
  map (fun rr => dump_dns_rr msg_bad_second rr ns_s_qd) [rr_of msg_bad_second ns_s_qd 0] =
    map (fun t => Some (t, tt)) ["a,IN,A"] /\
  dump_dns_sect msg_bad_second ns_s_qd ";" = Some (" ;2 a,IN,AMessage too long", tt).
Proof.
  assert (H1 : (List.length [rr_of msg_bad_second ns_s_qd 0]
                < Z.to_nat (ns_msg_count msg_bad_second ns_s_qd))%nat)
    by (vm_compute; repeat constructor).
  assert (H2 : map (fun i => ns_parserr msg_bad_second ns_s_qd (Z.of_nat i))
                 (seq 0 (List.length [rr_of msg_bad_second ns_s_qd 0])) =
               map inr [rr_of msg_bad_second ns_s_qd 0]) by (vm_compute; reflexivity).
  assert (H3 : ns_parserr msg_bad_second ns_s_qd
                 (Z.of_nat (List.length [rr_of msg_bad_second ns_s_qd 0])) =
               inl Wire.EMSGSIZE) by (vm_compute; reflexivity).
  assert (H4 : map (fun rr => dump_dns_rr msg_bad_second rr ns_s_qd)
                 [rr_of msg_bad_second ns_s_qd 0] =
               map (fun t => Some (t, tt)) ["a,IN,A"]) by (vm_compute; reflexivity).
  do 4 (split; [assumption|]).
  rewrite (X11_section_stops_at_failure msg_bad_second ns_s_qd ";" _ _ _ H1 H2 H3 H4).
  vm_compute. reflexivity.
Defined.

(** X14 at the opcodes 9 and 9, both [OPCODE9]. *)
Lemma X14_witness :
  0 <= 9 < 16 /\ p_opcode 9 = "OPCODE9" /\ p_opcode 9 = p_opcode 9 /\ 9 = 9.
Proof.
  assert (H1 : 0 <= 9 < 16) by lia.
  assert (H2 : p_opcode 9 = p_opcode 9) by reflexivity.
  split; [assumption|]. split; [vm_compute; reflexivity|]. split; [assumption|].
  exact (X14_p_opcode_injective 9 9 H1 H1 H2).
Defined.

(** X15 on the SOA record of [pkt_sample]. *)
Lemma X15_witness :
  uncompress_sound /\
  rr_in_msg msg_sample rr_sample_soa /\
  exists rest,
    dump_dns_rr msg_sample rr_sample_soa ns_s_an =
      Some (ns_rr_name rr_sample_soa ++ "," ++ rest, tt).
Proof.
  assert (H2 : rr_in_msg msg_sample rr_sample_soa) by (split; eval_goal).
  split; [exact Wire_uncompress_sound|]. split; [assumption|].
  exact (X15_record_reads_inside_message msg_sample rr_sample_soa ns_s_an
           Wire_uncompress_sound H2).
Defined.

(** X16 on [pkt_short_soa], whose SOA record is read past its rdata but
    inside the buffer. *)
Lemma X16_witness :
  uncompress_sound /\
  (forall msg, ns_initparse pkt_short_soa = inr msg -> parserr_sound msg) /\
  exists rest,
    dump_dns pkt_short_soa ";" = Some (" " ++ ";" ++ "dns " ++ rest, tt).
Proof.
  assert (H2 : forall msg, ns_initparse pkt_short_soa = inr msg -> parserr_sound msg)
    by (intros msg _; apply Wire_parserr_sound).
  split; [exact Wire_uncompress_sound|]. split; [assumption|].
  exact (X16_dump_dns_reads_inside_buffer pkt_short_soa ";" Wire_uncompress_sound H2).
Defined.

(** X17 on [pkt_sample]. *)
Lemma X17_witness :
  get_query_domain pkt_sample =
    Some (EmptyString, (EmptyString, Some "www.example.com")) /\
  exists msg rr,
    ns_initparse pkt_sample = inr msg /\
    0 < ns_msg_count msg ns_s_qd /\
    ns_parserr msg ns_s_qd 0 = inr rr /\
    "www.example.com" = ns_rr_name rr /\
    (String.length "www.example.com" <= 255)%nat /\
    EmptyString = EmptyString /\ EmptyString = EmptyString.
Proof.
  assert (H : get_query_domain pkt_sample =
              Some (EmptyString, (EmptyString, Some "www.example.com")))
    by (vm_compute; reflexivity).
  split; [assumption|].
  exact (X17_query_domain_is_first_question pkt_sample _ _ _ H).
Defined.

(** X19 on [pkt_ecs_prefix]: the address bytes 10, 1 are written
    10.1.0.0. *)
Lemma X19_witness :
  0 <= 23 /\
  4 <= 10 < 65536 /\
  23 + 10 <= Z.of_nat (List.length pkt_ecs_prefix) /\
  be16_at pkt_ecs_prefix 23 = 8 /\
  4 <= be16_at pkt_ecs_prefix (23 + 2) <= 10 - 4 /\
  be16_at pkt_ecs_prefix (23 + 4) = 1 /\
  edns0_option pkt_ecs_prefix 23 10 =
    Some ("edns0[code=8,codelen=6] edns0_client_subnet=10.1.0.0/16 (scope 0)",
          Next 33 0).
Proof.
  assert (H1 : 0 <= 23) by lia.
  assert (H2 : 4 <= 10 < 65536) by lia.
  assert (H3 : 23 + 10 <= Z.of_nat (List.length pkt_ecs_prefix)) by eval_goal.
  assert (H4 : be16_at pkt_ecs_prefix 23 = 8) by (vm_compute; reflexivity).
  assert (H5 : 4 <= be16_at pkt_ecs_prefix (23 + 2) <= 10 - 4) by (split; eval_goal).
  assert (H6 : be16_at pkt_ecs_prefix (23 + 4) = 1) by (vm_compute; reflexivity).
  do 6 (split; [assumption|]).
  rewrite (X19_ipv4_client_subnet_padding pkt_ecs_prefix 23 10 H1 H2 H3 H4 H5 H6).
  vm_compute. reflexivity.
Defined.
